(** * gdata_service: credentials, redirects and queries of the GData client

    A shallow embedding of [src/gdata_service.py] (class [GDataService] and
    class [Query]).  The service object is a record, every method is a
    function that takes the record and the environment (the remote world and
    the trace of transport calls made so far) and gives back an outcome, the
    record and the environment.  The HTTP transport, the XML parsers and
    [urllib.urlencode] are collaborators outside the module; they are the
    fields of the class [Externals]. *)

From Stdlib Require Import ZArith String Ascii List Bool Lia DecimalString.
From stdpp Require Import base option gmap strings list.

Local Open Scope string_scope.
Local Open Scope Z_scope.
Local Open Scope list_scope.

(** ** Python 2 byte-string primitives used by the module *)

Module Py.

(** [c in chars] for a one-character [c]. *)
Fixpoint char_in (c : ascii) (chars : string) : bool :=
  match chars with
  | EmptyString => false
  | String d chars' => if Ascii.eqb c d then true else char_in c chars'
  end.

(** [s.startswith(p)]. *)
Definition startswith (p s : string) : bool := String.prefix p s.

(** [s.lstrip(chars)]: drops the leading characters of [s] that occur in
    the SET of characters [chars]; it does not remove a prefix. *)
Fixpoint lstrip (chars s : string) : string :=
  match s with
  | EmptyString => EmptyString
  | String c s' => if char_in c chars then lstrip chars s' else s
  end.

(** [s[n:]] for [0 <= n]. *)
Fixpoint drop (n : nat) (s : string) : string :=
  match n, s with
  | O, _ => s
  | S _, EmptyString => EmptyString
  | S n', String _ s' => drop n' s'
  end.

Definition LF : ascii := ascii_of_nat 10.
Definition CR : ascii := ascii_of_nat 13.

(** [s.splitlines()] on an 8-bit string: lines end at LF, CR or CR LF,
    the line ends are dropped, and a last line without an end is kept
    when it is not empty.  [cur] is the line read so far. *)
Fixpoint splitlines_from (cur s : string) : list string :=
  match s with
  | EmptyString => match cur with EmptyString => [] | _ => [cur] end
  | String c s' =>
      if Ascii.eqb c LF then cur :: splitlines_from EmptyString s'
      else if Ascii.eqb c CR then
        match s' with
        | String d s'' =>
            if Ascii.eqb d LF then cur :: splitlines_from EmptyString s''
            else cur :: splitlines_from EmptyString s'
        | EmptyString => cur :: splitlines_from EmptyString s'
        end
      else splitlines_from (cur +:+ String c EmptyString) s'
  end.

Definition splitlines (s : string) : list string :=
  splitlines_from EmptyString s.

(** [s.find(sub)]: the least index at which [sub] occurs in [s], or -1. *)
Fixpoint find_from (i : Z) (sub s : string) : Z :=
  if String.prefix sub s then i
  else match s with
       | EmptyString => -1
       | String _ s' => find_from (i + 1) sub s'
       end.

Definition find (sub s : string) : Z := find_from 0 sub s.

(** [str(x)] for a value that is a string or [None]. *)
Definition str (x : option string) : string := default "None" x.

(** [str(n)] for a length. *)
Definition str_of_nat (n : nat) : string :=
  NilZero.string_of_uint (Nat.to_uint n).

(** Truth value of a string or [None]: [None] and [''] are false. *)
Definition truthy (x : option string) : bool :=
  match x with
  | Some (String _ _) => true
  | _ => false
  end.

(** The class [\w] of the [re] module for 8-bit patterns without flags:
    ASCII letters, digits and the underscore. *)
Definition is_word (c : ascii) : bool :=
  let n := nat_of_ascii c in
  ((48 <=? n) && (n <=? 57) || (65 <=? n) && (n <=? 90)
   || (97 <=? n) && (n <=? 122) || (n =? 95))%nat.

(** The longest prefix of word characters: what the greedy group of
    word characters of the pattern takes. *)
Fixpoint take_word (s : string) : string :=
  match s with
  | String c s' => if is_word c then String c (take_word s') else EmptyString
  | EmptyString => EmptyString
  end.

End Py.

(** The search of the compiled pattern (a question mark or an ampersand,
    then [gsessionid=], then a group of zero or more word characters) in
    [location], giving [m.group(1)] of the leftmost match, or [None] when
    nothing matches. *)
Fixpoint search_gsessionid (location : string) : option string :=
  match location with
  | EmptyString => None
  | String c rest =>
      if (Ascii.eqb c "?" || Ascii.eqb c "&")
         && Py.startswith "gsessionid=" rest
      then Some (Py.take_word (Py.drop 11 rest))
      else search_gsessionid rest
  end.

(** ** Data model *)

Definition PROGRAMMATIC_AUTH_LABEL : string := "GoogleLogin auth".
Definition AUTHSUB_AUTH_LABEL : string := "AuthSub token".

Abbreviation Headers := (gmap string string).
Abbreviation Params := (gmap string string).

(** The response object of the transport ([httplib.HTTPResponse]): the
    module reads [status], [reason], [read()] and [getheader(name)]. *)
Record Response := {
  status : Z;
  reason : string;
  read : string;
  getheader : string -> option string
}.

(** The calls the module makes on its collaborators: the four methods of
    [app_service.AtomService] and a request on an
    [httplib.HTTPSConnection] (host, method, path, headers in the order
    of the [putheader] calls, body sent). *)
Inductive Call {Data : Type} :=
| AtomService_Get (uri : string) (extra_headers : Headers)
| AtomService_Post (data : Data) (uri : string) (extra_headers : Headers)
    (url_params : option Params) (escape_params : bool)
| AtomService_Put (data : Data) (uri : string) (extra_headers : Headers)
    (url_params : option Params) (escape_params : bool)
| AtomService_Delete (uri : string) (extra_headers : Headers)
    (url_params : option Params) (escape_params : bool)
| HTTPSConnection_request (host method path : string)
    (headers : list (string * string)) (body : option string).
Arguments Call : clear implicits.

(** What lies outside the module: the payload type of POST and PUT, the
    parsed feed and entry types, the remote world with the transport that
    answers a call, the two XML parsers (a falsy result is [None]) and
    [urllib.urlencode]. *)
Class Externals := {
  Data : Type;
  Feed : Type;
  Entry : Type;
  World : Type;
  transport : Call Data -> World -> Response * World;
  GDataFeedFromString : string -> option Feed;
  EntryFromString : string -> option Entry;
  urlencode : list (string * option string) -> string
}.

(** The exceptions of the module (the subclasses of [Error], with
    [Error] itself), and the interpreter's [UnboundLocalError], a
    [NameError], raised when a local variable is read before it was
    assigned. *)
Inductive Exn :=
| Error (msg : string)
| CaptchaRequired (msg : string)
| BadAuthentication (msg : string)
| NotAuthenticated
| NonAuthSubToken
| RequestError (err_status : Z) (err_reason err_body : string)
| UnexpectedReturnType (msg : string)
| UnboundLocalError (name : string).

(** The error kinds the library declares. *)
Definition is_library_error (e : Exn) : bool :=
  match e with
  | UnboundLocalError _ => false
  | _ => true
  end.

(** The private state of a [GDataService] with its public attributes. *)
Record GDataService := {
  email : option string;
  password : option string;
  account_type : option string;
  service : option string;
  source : option string;
  server : option string;
  additional_headers : Headers;
  auth_token : option string;
  auth_type : option string;
  captcha_token : option string;
  captcha_url : option string;
  gsessionid : option string
}.

Definition set_auth_token (v : option string) (self : GDataService) :=
  {| email := email self; password := password self;
     account_type := account_type self; service := service self;
     source := source self; server := server self;
     additional_headers := additional_headers self;
     auth_token := v; auth_type := auth_type self;
     captcha_token := captcha_token self; captcha_url := captcha_url self;
     gsessionid := gsessionid self |}.

Definition set_auth_type (v : option string) (self : GDataService) :=
  {| email := email self; password := password self;
     account_type := account_type self; service := service self;
     source := source self; server := server self;
     additional_headers := additional_headers self;
     auth_token := auth_token self; auth_type := v;
     captcha_token := captcha_token self; captcha_url := captcha_url self;
     gsessionid := gsessionid self |}.

Definition set_captcha_token (v : option string) (self : GDataService) :=
  {| email := email self; password := password self;
     account_type := account_type self; service := service self;
     source := source self; server := server self;
     additional_headers := additional_headers self;
     auth_token := auth_token self; auth_type := auth_type self;
     captcha_token := v; captcha_url := captcha_url self;
     gsessionid := gsessionid self |}.

Definition set_captcha_url (v : option string) (self : GDataService) :=
  {| email := email self; password := password self;
     account_type := account_type self; service := service self;
     source := source self; server := server self;
     additional_headers := additional_headers self;
     auth_token := auth_token self; auth_type := auth_type self;
     captcha_token := captcha_token self; captcha_url := v;
     gsessionid := gsessionid self |}.

Definition set_gsessionid (v : option string) (self : GDataService) :=
  {| email := email self; password := password self;
     account_type := account_type self; service := service self;
     source := source self; server := server self;
     additional_headers := additional_headers self;
     auth_token := auth_token self; auth_type := auth_type self;
     captcha_token := captcha_token self; captcha_url := captcha_url self;
     gsessionid := v |}.

(** [GDataService.__init__]. *)
Definition GDataService_init (email password account_type service source
    server : option string) (additional_headers : option Headers)
  : GDataService :=
  {| email := email; password := password; account_type := account_type;
     service := service; source := source; server := server;
     additional_headers := default ∅ additional_headers;
     auth_token := None; auth_type := None;
     captcha_token := None; captcha_url := None; gsessionid := None |}.

(** [_SetAuthSubToken], the setter of the property [auth_token]. *)
Definition _SetAuthSubToken (self : GDataService) (auth_token : option string)
  : GDataService :=
  set_auth_type (Some AUTHSUB_AUTH_LABEL) (set_auth_token auth_token self).

Definition _GetAuthToken (self : GDataService) : option string :=
  auth_token self.

Definition _GetCaptchaToken (self : GDataService) : option string :=
  captcha_token self.

Definition _GetCaptchaURL (self : GDataService) : option string :=
  captcha_url self.

(** ** The service *)

Section Service.
Context {X : Externals}.

(** What a method returns: [None], [True], the raw body, a feed or an
    entry. *)
Inductive Value :=
| VNone
| VTrue
| VStr (s : string)
| VFeed (f : Feed)
| VEntry (e : Entry).

(** How a call ends.  [OutOfFuel] marks a recursion cut by the fuel of
    the model; [crud_total] shows that no method ends so. *)
Inductive Outcome :=
| Return (v : Value)
| Raise (e : Exn)
| OutOfFuel.

(** The environment of a call: the remote world and the calls made on the
    transport so far, oldest first. *)
Record Env := { world : World; trace : list (Call Data) }.

(** One call on the transport. *)
Definition request (c : Call Data) (env : Env) : Response * Env :=
  let '(r, w) := transport c (world env) in
  (r, {| world := w; trace := trace env ++ [c] |}).

(** *** Authentication operations *)

(** The body of the loop over the lines of a 200 response. *)
Definition login_200_line (self : GDataService) (response_line : string)
  : GDataService :=
  if Py.startswith "Auth=" response_line then
    let self := set_auth_token (Some (Py.lstrip "Auth=" response_line)) self in
    let self := set_auth_type (Some PROGRAMMATIC_AUTH_LABEL) self in
    let self := set_captcha_token None self in
    set_captcha_url None self
  else self.

(** The body of the loop over the lines of a 403 response; the second
    component is the local [error_line], [None] while it is unbound. *)
Definition login_403_line (st : GDataService * option string)
    (response_line : string) : GDataService * option string :=
  let '(self, error_line) := st in
  if Py.startswith "Error=" response_line then (self, Some response_line)
  else if Py.startswith "CaptchaToken=" response_line then
    (set_captcha_token (Some (Py.lstrip "CaptchaToken=" response_line)) self,
     error_line)
  else if Py.startswith "CaptchaUrl=" response_line then
    (set_captcha_url
       (Some ("https://www.google.com/accounts/Captcha"
              +:+ Py.lstrip "CaptchaUrl=" response_line)) self,
     error_line)
  else (self, error_line).

Definition login_request (self : GDataService)
    (captcha_token captcha_response : option string) : Call Data :=
  let request_body :=
    if Py.truthy captcha_token && Py.truthy captcha_response then
      urlencode [("Email", email self); ("Passwd", password self);
                 ("accountType", account_type self);
                 ("service", service self); ("source", source self);
                 ("logintoken", captcha_token);
                 ("logincaptcha", captcha_response)]
    else
      urlencode [("Email", email self); ("Passwd", password self);
                 ("accountType", account_type self);
                 ("service", service self); ("source", source self)] in
  HTTPSConnection_request "www.google.com" "POST" "/accounts/ClientLogin"
    [("Content-type", "application/x-www-form-urlencoded");
     ("Content-Length", Py.str_of_nat (String.length request_body))]
    (Some request_body).

Definition ProgrammaticLogin (self : GDataService)
    (captcha_token captcha_response : option string) (env : Env)
  : Outcome * GDataService * Env :=
  let '(auth_response, env) :=
    request (login_request self captcha_token captcha_response) env in
  if status auth_response =? 200 then
    let response_body := read auth_response in
    let self := foldl login_200_line self (Py.splitlines response_body) in
    (Return VNone, self, env)
  else if status auth_response =? 403 then
    let response_body := read auth_response in
    let '(self, error_line) :=
      foldl login_403_line (self, None) (Py.splitlines response_body) in
    match error_line with
    | None => (Raise (UnboundLocalError "error_line"), self, env)
    | Some error_line =>
        if String.eqb error_line "Error=CaptchaRequired" then
          (Raise (CaptchaRequired "Captcha Required"), self, env)
        else if String.eqb error_line "Error=BadAuthentication" then
          let self := set_captcha_token None self in
          let self := set_captcha_url None self in
          (Raise (BadAuthentication "Incorrect username or password"),
           self, env)
        else
          let self := set_captcha_token None self in
          let self := set_captcha_url None self in
          (Raise (Error "Server responded with a 403 code"), self, env)
    end
  else (Return VNone, self, env).

Definition authsub_request (self : GDataService) (path : string) : Call Data :=
  HTTPSConnection_request "www.google.com" "GET" path
    [("Content-Type", "application/x-www-form-urlencoded");
     ("Authorization",
      Py.str (auth_type self) +:+ "=" +:+ Py.str (auth_token self))]
    None.

Definition upgrade_line (self : GDataService) (response_line : string)
  : GDataService :=
  if Py.startswith "Token=" response_line then
    set_auth_token (Some (Py.lstrip "Token=" response_line)) self
  else self.

Definition UpgradeToSessionToken (self : GDataService) (env : Env)
  : Outcome * GDataService * Env :=
  if decide (auth_type self ≠ Some AUTHSUB_AUTH_LABEL) then
    (Raise NonAuthSubToken, self, env)
  else
    let '(response, env) :=
      request (authsub_request self "/accounts/AuthSubSessionToken") env in
    let response_body := read response in
    if status response =? 200 then
      (Return VNone, foldl upgrade_line self (Py.splitlines response_body),
       env)
    else (Return VNone, self, env).

Definition RevokeAuthSubToken (self : GDataService) (env : Env)
  : Outcome * GDataService * Env :=
  if decide (auth_type self ≠ Some AUTHSUB_AUTH_LABEL) then
    (Raise NonAuthSubToken, self, env)
  else
    let '(response, env) :=
      request (authsub_request self "/accounts/AuthSubRevokeToken") env in
    if status response =? 200 then
      let self := set_auth_type None self in
      let self := set_auth_token None self in
      (Return VNone, self, env)
    else (Return VNone, self, env).

(** *** CRUD operations *)

(** The first block of each CRUD method: the [Authorization] header is
    added when a token is there.  The method writes it into the dict it was
    given; here the dict with the header is a new value, which is the one
    sent and the one passed on to the call that follows a redirect. *)
Definition authorize (self : GDataService) (extra_headers : Headers)
  : Headers :=
  if Py.truthy (auth_token self) then
    <["Authorization" :=
        Py.str (auth_type self) +:+ "=" +:+ Py.str (auth_token self)]>
      extra_headers
  else extra_headers.

(** The second block of each CRUD method: the session id is appended to
    the URI. *)
Definition with_gsessionid (self : GDataService) (uri : string) : string :=
  match gsessionid self with
  | Some sid =>
      if Py.find "gsessionid=" uri <? 0 then
        if Py.find "?" uri >? -1 then uri +:+ "&gsessionid=" +:+ sid
        else uri +:+ "?gsessionid=" +:+ sid
      else uri
  | None => uri
  end.

(** The success branch of [Get], [Post] and [Put]: a feed, else an entry,
    else the body as it came. *)
Definition parse_result (result_body : string) : Value :=
  match GDataFeedFromString result_body with
  | Some feed => VFeed feed
  | None =>
      match EntryFromString result_body with
      | Some entry => VEntry entry
      | None => VStr result_body
      end
  end.

(** The session id of a redirect target is stored when it is found. *)
Definition learn_gsessionid (self : GDataService) (location : string)
  : GDataService :=
  match search_gsessionid location with
  | Some m => set_gsessionid (Some m) self
  | None => self
  end.

Fixpoint Get_rec (fuel : nat) (self : GDataService) (uri : string)
    (extra_headers : option Headers) (redirects_remaining : Z) (env : Env)
  : Outcome * GDataService * Env :=
  let extra_headers := authorize self (default ∅ extra_headers) in
  let uri := with_gsessionid self uri in
  let '(server_response, env) :=
    request (AtomService_Get uri extra_headers) env in
  let result_body := read server_response in
  if status server_response =? 200 then
    (Return (parse_result result_body), self, env)
  else if status server_response =? 302 then
    if redirects_remaining >? 0 then
      match getheader server_response "Location" with
      | Some location =>
          let self := learn_gsessionid self location in
          match fuel with
          | S fuel' =>
              Get_rec fuel' self location (Some extra_headers)
                (redirects_remaining - 1) env
          | O => (OutOfFuel, self, env)
          end
      | None =>
          (Raise (RequestError (status server_response)
                    "302 received without Location header" result_body),
           self, env)
      end
    else
      (Raise (RequestError (status server_response)
                "Redirect received, but redirects_remaining <= 0"
                result_body),
       self, env)
  else
    (Raise (RequestError (status server_response) (reason server_response)
              result_body),
     self, env).

Definition Get (self : GDataService) (uri : string)
    (extra_headers : option Headers) (redirects_remaining : Z) (env : Env)
  : Outcome * GDataService * Env :=
  Get_rec (Z.to_nat redirects_remaining) self uri extra_headers
    redirects_remaining env.

Fixpoint Post_rec (fuel : nat) (self : GDataService) (data : Data)
    (uri : string) (extra_headers : option Headers)
    (url_params : option Params) (escape_params : bool)
    (redirects_remaining : Z) (env : Env) : Outcome * GDataService * Env :=
  let extra_headers := authorize self (default ∅ extra_headers) in
  let uri := with_gsessionid self uri in
  let '(server_response, env) :=
    request (AtomService_Post data uri extra_headers url_params
               escape_params) env in
  let result_body := read server_response in
  if status server_response =? 201 then
    (Return (parse_result result_body), self, env)
  else if status server_response =? 302 then
    if redirects_remaining >? 0 then
      match getheader server_response "Location" with
      | Some location =>
          let self := learn_gsessionid self location in
          match fuel with
          | S fuel' =>
              Post_rec fuel' self data location (Some extra_headers)
                url_params escape_params (redirects_remaining - 1) env
          | O => (OutOfFuel, self, env)
          end
      | None =>
          (Raise (RequestError (status server_response)
                    "302 received without Location header" result_body),
           self, env)
      end
    else
      (Raise (RequestError (status server_response)
                "Redirect received, but redirects_remaining <= 0"
                result_body),
       self, env)
  else
    (Raise (RequestError (status server_response) (reason server_response)
              result_body),
     self, env).

Definition Post (self : GDataService) (data : Data) (uri : string)
    (extra_headers : option Headers) (url_params : option Params)
    (escape_params : bool) (redirects_remaining : Z) (env : Env)
  : Outcome * GDataService * Env :=
  Post_rec (Z.to_nat redirects_remaining) self data uri extra_headers
    url_params escape_params redirects_remaining env.

Fixpoint Put_rec (fuel : nat) (self : GDataService) (data : Data)
    (uri : string) (extra_headers : option Headers)
    (url_params : option Params) (escape_params : bool)
    (redirects_remaining : Z) (env : Env) : Outcome * GDataService * Env :=
  let extra_headers := authorize self (default ∅ extra_headers) in
  let uri := with_gsessionid self uri in
  let '(server_response, env) :=
    request (AtomService_Put data uri extra_headers url_params
               escape_params) env in
  let result_body := read server_response in
  if status server_response =? 200 then
    (Return (parse_result result_body), self, env)
  else if status server_response =? 302 then
    if redirects_remaining >? 0 then
      match getheader server_response "Location" with
      | Some location =>
          let self := learn_gsessionid self location in
          match fuel with
          | S fuel' =>
              Put_rec fuel' self data location (Some extra_headers)
                url_params escape_params (redirects_remaining - 1) env
          | O => (OutOfFuel, self, env)
          end
      | None =>
          (Raise (RequestError (status server_response)
                    "302 received without Location header" result_body),
           self, env)
      end
    else
      (Raise (RequestError (status server_response)
                "Redirect received, but redirects_remaining <= 0"
                result_body),
       self, env)
  else
    (Raise (RequestError (status server_response) (reason server_response)
              result_body),
     self, env).

Definition Put (self : GDataService) (data : Data) (uri : string)
    (extra_headers : option Headers) (url_params : option Params)
    (escape_params : bool) (redirects_remaining : Z) (env : Env)
  : Outcome * GDataService * Env :=
  Put_rec (Z.to_nat redirects_remaining) self data uri extra_headers
    url_params escape_params redirects_remaining env.

Fixpoint Delete_rec (fuel : nat) (self : GDataService) (uri : string)
    (extra_headers : option Headers) (url_params : option Params)
    (escape_params : bool) (redirects_remaining : Z) (env : Env)
  : Outcome * GDataService * Env :=
  let extra_headers := authorize self (default ∅ extra_headers) in
  let uri := with_gsessionid self uri in
  let '(server_response, env) :=
    request (AtomService_Delete uri extra_headers url_params escape_params)
      env in
  let result_body := read server_response in
  if status server_response =? 200 then (Return VTrue, self, env)
  else if status server_response =? 302 then
    if redirects_remaining >? 0 then
      match getheader server_response "Location" with
      | Some location =>
          let self := learn_gsessionid self location in
          match fuel with
          | S fuel' =>
              Delete_rec fuel' self location (Some extra_headers)
                url_params escape_params (redirects_remaining - 1) env
          | O => (OutOfFuel, self, env)
          end
      | None =>
          (Raise (RequestError (status server_response)
                    "302 received without Location header" result_body),
           self, env)
      end
    else
      (Raise (RequestError (status server_response)
                "Redirect received, but redirects_remaining <= 0"
                result_body),
       self, env)
  else
    (Raise (RequestError (status server_response) (reason server_response)
              result_body),
     self, env).

Definition Delete (self : GDataService) (uri : string)
    (extra_headers : option Headers) (url_params : option Params)
    (escape_params : bool) (redirects_remaining : Z) (env : Env)
  : Outcome * GDataService * Env :=
  Delete_rec (Z.to_nat redirects_remaining) self uri extra_headers
    url_params escape_params redirects_remaining env.

(** [GetEntry] and [GetFeed] call [Get] with its default budget of 4. *)
Definition GetEntry (self : GDataService) (uri : string)
    (extra_headers : option Headers) (env : Env)
  : Outcome * GDataService * Env :=
  let '(result, self, env) := Get self uri extra_headers 4 env in
  match result with
  | Return (VEntry e) => (Return (VEntry e), self, env)
  | Return _ =>
      (Raise (UnexpectedReturnType "Server did not send an entry"), self, env)
  | _ => (result, self, env)
  end.

Definition GetFeed (self : GDataService) (uri : string)
    (extra_headers : option Headers) (env : Env)
  : Outcome * GDataService * Env :=
  let '(result, self, env) := Get self uri extra_headers 4 env in
  match result with
  | Return (VFeed f) => (Return (VFeed f), self, env)
  | Return _ =>
      (Raise (UnexpectedReturnType "Server did not send a feed"), self, env)
  | _ => (result, self, env)
  end.

End Service.

(** ** The public operations as data *)

Section Operations.
Context {X : Externals}.

(** A CRUD method with the arguments that are its own. *)
Inductive Crud :=
| Crud_Get
| Crud_Post (data : Data) (url_params : option Params) (escape_params : bool)
| Crud_Put (data : Data) (url_params : option Params) (escape_params : bool)
| Crud_Delete (url_params : option Params) (escape_params : bool).

Definition crud (op : Crud) (self : GDataService) (uri : string)
    (extra_headers : option Headers) (redirects_remaining : Z) (env : Env)
  : Outcome * GDataService * Env :=
  match op with
  | Crud_Get => Get self uri extra_headers redirects_remaining env
  | Crud_Post data url_params escape_params =>
      Post self data uri extra_headers url_params escape_params
        redirects_remaining env
  | Crud_Put data url_params escape_params =>
      Put self data uri extra_headers url_params escape_params
        redirects_remaining env
  | Crud_Delete url_params escape_params =>
      Delete self uri extra_headers url_params escape_params
        redirects_remaining env
  end.

(** The call a CRUD method makes on the transport for a URI and headers. *)
Definition crud_call (op : Crud) (uri : string) (extra_headers : Headers)
  : Call Data :=
  match op with
  | Crud_Get => AtomService_Get uri extra_headers
  | Crud_Post data url_params escape_params =>
      AtomService_Post data uri extra_headers url_params escape_params
  | Crud_Put data url_params escape_params =>
      AtomService_Put data uri extra_headers url_params escape_params
  | Crud_Delete url_params escape_params =>
      AtomService_Delete uri extra_headers url_params escape_params
  end.

(** The status a CRUD method takes for success. *)
Definition success_status (op : Crud) : Z :=
  match op with
  | Crud_Post _ _ _ => 201
  | _ => 200
  end.

(** The URI of a call on [AtomService]. *)
Definition call_uri (c : Call Data) : option string :=
  match c with
  | AtomService_Get uri _ => Some uri
  | AtomService_Post _ uri _ _ _ => Some uri
  | AtomService_Put _ uri _ _ _ => Some uri
  | AtomService_Delete uri _ _ _ => Some uri
  | HTTPSConnection_request _ _ _ _ _ => None
  end.

(** What a client can do with a service object. *)
Inductive PublicOp :=
| Op_set_auth_token (v : option string)
| Op_ProgrammaticLogin (captcha_token captcha_response : option string)
| Op_UpgradeToSessionToken
| Op_RevokeAuthSubToken
| Op_crud (op : Crud) (uri : string) (extra_headers : option Headers)
    (redirects_remaining : Z)
| Op_GetEntry (uri : string) (extra_headers : option Headers)
| Op_GetFeed (uri : string) (extra_headers : option Headers).

(** One operation; the client may catch what it raises and go on, so the
    outcome is dropped. *)
Definition step (st : GDataService * Env) (o : PublicOp)
  : GDataService * Env :=
  let '(self, env) := st in
  match o with
  | Op_set_auth_token v => (_SetAuthSubToken self v, env)
  | Op_ProgrammaticLogin captcha_token captcha_response =>
      let '(_, self, env) :=
        ProgrammaticLogin self captcha_token captcha_response env in
      (self, env)
  | Op_UpgradeToSessionToken =>
      let '(_, self, env) := UpgradeToSessionToken self env in (self, env)
  | Op_RevokeAuthSubToken =>
      let '(_, self, env) := RevokeAuthSubToken self env in (self, env)
  | Op_crud op uri extra_headers redirects_remaining =>
      let '(_, self, env) :=
        crud op self uri extra_headers redirects_remaining env in
      (self, env)
  | Op_GetEntry uri extra_headers =>
      let '(_, self, env) := GetEntry self uri extra_headers env in
      (self, env)
  | Op_GetFeed uri extra_headers =>
      let '(_, self, env) := GetFeed self uri extra_headers env in
      (self, env)
  end.

Definition run (ops : list PublicOp) (st : GDataService * Env)
  : GDataService * Env :=
  foldl step st ops.

(** The property [auth_token] is assigned [None] by no operation of the
    list. *)
Definition sets_no_absent_token (ops : list PublicOp) : bool :=
  forallb (fun o => match o with
                    | Op_set_auth_token None => false
                    | _ => true
                    end) ops.

(** A field is set when it is not [None]. *)
Definition is_set (x : option string) : bool :=
  match x with
  | Some _ => true
  | None => false
  end.

(** What an operation can do to the pair of the token and its type. *)
Inductive auth_effect (o : PublicOp) (s s' : GDataService) : Prop :=
| effect_none :
    auth_token s' = auth_token s -> auth_type s' = auth_type s ->
    auth_effect o s s'
| effect_both_set :
    is_set (auth_token s') = true -> is_set (auth_type s') = true ->
    auth_effect o s s'
| effect_both_cleared :
    auth_token s' = None -> auth_type s' = None -> auth_effect o s s'
| effect_type_alone :
    o = Op_set_auth_token None ->
    auth_token s' = None -> auth_type s' = Some AUTHSUB_AUTH_LABEL ->
    auth_effect o s s'.

End Operations.

(** ** Reading results and responses *)

Section Observations.
Context {X : Externals}.

(** The three components of what a method gives back. *)
Definition outcome (x : Outcome * GDataService * Env) : Outcome := x.1.1.
Definition service_after (x : Outcome * GDataService * Env) : GDataService :=
  x.1.2.
Definition env_after (x : Outcome * GDataService * Env) : Env := x.2.

(** The response to the login request of [ProgrammaticLogin]. *)
Definition login_response (self : GDataService)
    (captcha_token captcha_response : option string) (env : Env) : Response :=
  (request (login_request self captcha_token captcha_response) env).1.

(** A body has a line that starts with [Auth=]. *)
Definition has_auth_line (body : string) : bool :=
  existsb (Py.startswith "Auth=") (Py.splitlines body).

(** The last line of a body that starts with [Error=], if there is one. *)
Definition last_error_line (body : string) : option string :=
  last (List.filter (Py.startswith "Error=") (Py.splitlines body)).

(** The first call of a CRUD method on the transport. *)
Definition first_call (op : Crud) (self : GDataService) (uri : string)
    (extra_headers : option Headers) : Call Data :=
  crud_call op (with_gsessionid self uri)
    (authorize self (default ∅ extra_headers)).

(** The URI of the first call made on the transport between two
    environments. *)
Definition sent_uri (before after : Env) : option string :=
  trace after !! length (trace before) ≫= call_uri.

(** The value a CRUD method returns on success. *)
Definition success_value (op : Crud) (result_body : string) : Value :=
  match op with
  | Crud_Delete _ _ => VTrue
  | _ => parse_result result_body
  end.

(** The four CRUD methods are one method up to the call made, the status
    taken for success and the value returned: [execute_rec] is that
    method, and [crud_execute] shows that [Get], [Post], [Put] and
    [Delete] are its instances. *)
Fixpoint execute_rec (fuel : nat) (op : Crud) (self : GDataService)
    (uri : string) (extra_headers : option Headers)
    (redirects_remaining : Z) (env : Env) : Outcome * GDataService * Env :=
  let '(server_response, env1) :=
    request (first_call op self uri extra_headers) env in
  if status server_response =? success_status op then
    (Return (success_value op (read server_response)), self, env1)
  else if status server_response =? 302 then
    if redirects_remaining >? 0 then
      match getheader server_response "Location" with
      | Some location =>
          match fuel with
          | S fuel' =>
              execute_rec fuel' op (learn_gsessionid self location) location
                (Some (authorize self (default ∅ extra_headers)))
                (redirects_remaining - 1) env1
          | O => (OutOfFuel, learn_gsessionid self location, env1)
          end
      | None =>
          (Raise (RequestError (status server_response)
                    "302 received without Location header"
                    (read server_response)),
           self, env1)
      end
    else
      (Raise (RequestError (status server_response)
                "Redirect received, but redirects_remaining <= 0"
                (read server_response)),
       self, env1)
  else
    (Raise (RequestError (status server_response) (reason server_response)
              (read server_response)),
     self, env1).

End Observations.

(** ** The session parameter in the words of the specification

    The specification appends the session id when it is "not already
    present in the URI's query string".  [spec_query_string] is the part
    of a URI after its first question mark and [spec_with_gsessionid]
    follows that sentence; both are compared with [with_gsessionid]. *)

Fixpoint spec_query_string (uri : string) : string :=
  match uri with
  | EmptyString => EmptyString
  | String c rest =>
      if Ascii.eqb c "?" then rest else spec_query_string rest
  end.

Definition spec_with_gsessionid (sid uri : string) : string :=
  if Py.find "gsessionid" (spec_query_string uri) <? 0 then
    if Py.find "?" uri >? -1 then uri +:+ "&gsessionid=" +:+ sid
    else uri +:+ "?gsessionid=" +:+ sid
  else uri.

(** ** Query *)

(** The values a client stores in a query. *)
Inductive PyVal :=
| PyNone
| PyStr (s : string)
| PyInt (n : Z).

Definition PyVal_truthy (v : PyVal) : bool :=
  match v with
  | PyNone => false
  | PyStr EmptyString => false
  | PyStr _ => true
  | PyInt n => negb (n =? 0)
  end.

(** A [Query] is a dict with two attributes. *)
Record Query := {
  feed : option string;
  categories : list string;
  items : gmap string PyVal
}.

(** [self[key] = value]. *)
Definition setitem (self : Query) (key : string) (value : PyVal) : Query :=
  {| feed := feed self; categories := categories self;
     items := <[key := value]> (items self) |}.

(** [self[key] if key in self.keys() else None]. *)
Definition getitem_or_None (self : Query) (key : string) : PyVal :=
  match items self !! key with
  | Some v => v
  | None => PyNone
  end.

Definition _GetTextQuery (self : Query) : PyVal := getitem_or_None self "q".
Definition _SetTextQuery (self : Query) (query : PyVal) : Query :=
  setitem self "q" query.

Definition _GetAuthor (self : Query) : PyVal := getitem_or_None self "author".
Definition _SetAuthor (self : Query) (query : PyVal) : Query :=
  setitem self "author" query.

Definition _GetAlt (self : Query) : PyVal := getitem_or_None self "alt".
Definition _SetAlt (self : Query) (query : PyVal) : Query :=
  setitem self "alt" query.

Definition _GetUpdatedMin (self : Query) : PyVal :=
  getitem_or_None self "updated-min".
Definition _SetUpdatedMin (self : Query) (query : PyVal) : Query :=
  setitem self "updated-min" query.

Definition _GetUpdatedMax (self : Query) : PyVal :=
  getitem_or_None self "updated-max".
Definition _SetUpdatedMax (self : Query) (query : PyVal) : Query :=
  setitem self "updated-max" query.

Definition _GetPublishedMin (self : Query) : PyVal :=
  getitem_or_None self "published-min".
Definition _SetPublishedMin (self : Query) (query : PyVal) : Query :=
  setitem self "published-min" query.

Definition _GetPublishedMax (self : Query) : PyVal :=
  getitem_or_None self "published-max".
Definition _SetPublishedMax (self : Query) (query : PyVal) : Query :=
  setitem self "published-max" query.

Definition _GetStartIndex (self : Query) : PyVal :=
  getitem_or_None self "start-index".
Definition _SetStartIndex (self : Query) (query : PyVal) : Query :=
  setitem self "start-index" query.

Definition _GetMaxResults (self : Query) : PyVal :=
  getitem_or_None self "max-results".
Definition _SetMaxResults (self : Query) (query : PyVal) : Query :=
  setitem self "max-results" query.

(** [for param in params: self[param] = params[param]]. *)
Definition update_items (self : Query) (params : gmap string PyVal) : Query :=
  {| feed := feed self; categories := categories self;
     items := params ∪ items self |}.

(** [for category in categories: self.categories.append(category)]. *)
Definition append_categories (self : Query) (cs : list string) : Query :=
  {| feed := feed self; categories := categories self ++ cs;
     items := items self |}.

(** [Query.__init__]: [params] is [None] when the argument is no dict and
    [categories] is [None] when the argument is no list. *)
Definition Query_init (feed : option string) (text_query : PyVal)
    (params : option (gmap string PyVal)) (categories : option (list string))
  : Query :=
  let self := {| feed := feed; categories := []; items := ∅ |} in
  let self :=
    if PyVal_truthy text_query then _SetTextQuery self text_query else self in
  let self :=
    match params with
    | Some params => update_items self params
    | None => self
    end in
  match categories with
  | Some categories => append_categories self categories
  | None => self
  end.

(** The named accessor properties and their keys. *)
Inductive Accessor :=
| prop_text_query | prop_author | prop_alt | prop_updated_min | prop_updated_max
| prop_published_min | prop_published_max | prop_start_index | prop_max_results.

Definition accessor_key (a : Accessor) : string :=
  match a with
  | prop_text_query => "q"
  | prop_author => "author"
  | prop_alt => "alt"
  | prop_updated_min => "updated-min"
  | prop_updated_max => "updated-max"
  | prop_published_min => "published-min"
  | prop_published_max => "published-max"
  | prop_start_index => "start-index"
  | prop_max_results => "max-results"
  end.

Definition fget (a : Accessor) (self : Query) : PyVal :=
  match a with
  | prop_text_query => _GetTextQuery self
  | prop_author => _GetAuthor self
  | prop_alt => _GetAlt self
  | prop_updated_min => _GetUpdatedMin self
  | prop_updated_max => _GetUpdatedMax self
  | prop_published_min => _GetPublishedMin self
  | prop_published_max => _GetPublishedMax self
  | prop_start_index => _GetStartIndex self
  | prop_max_results => _GetMaxResults self
  end.

Definition fset (a : Accessor) (self : Query) (v : PyVal) : Query :=
  match a with
  | prop_text_query => _SetTextQuery self v
  | prop_author => _SetAuthor self v
  | prop_alt => _SetAlt self v
  | prop_updated_min => _SetUpdatedMin self v
  | prop_updated_max => _SetUpdatedMax self v
  | prop_published_min => _SetPublishedMin self v
  | prop_published_max => _SetPublishedMax self v
  | prop_start_index => _SetStartIndex self v
  | prop_max_results => _SetMaxResults self v
  end.

(** What a client can do with a query: assign a property, assign an item,
    delete an item (on a key that is not there [del] raises [KeyError] and
    the query stays as it is), append a category. *)
Inductive QueryOp :=
| Q_set (a : Accessor) (v : PyVal)
| Q_setitem (key : string) (v : PyVal)
| Q_delitem (key : string)
| Q_append_category (c : string).

Definition query_step (self : Query) (o : QueryOp) : Query :=
  match o with
  | Q_set a v => fset a self v
  | Q_setitem key v => setitem self key v
  | Q_delitem key =>
      {| feed := feed self; categories := categories self;
         items := delete key (items self) |}
  | Q_append_category c => append_categories self [c]
  end.

(** The key an operation assigns, if it assigns one. *)
Definition assigned_key (o : QueryOp) : option string :=
  match o with
  | Q_set a _ => Some (accessor_key a)
  | Q_setitem key _ => Some key
  | _ => None
  end.

(** No operation of the list assigns the key. *)
Definition never_set (key : string) (ops : list QueryOp) : bool :=
  forallb (fun o => bool_decide (assigned_key o ≠ Some key)) ops.

(** ** A scripted transport

    A closed instance of the collaborators, used to run the methods on
    concrete inputs: the world is the list of the responses still to come
    (an exhausted script answers 500), payloads, feeds and entries are
    strings, a body is a feed when it starts with [<feed] and an entry when
    it starts with [<entry]. *)

Module Stub.

Definition response (st : Z) (body : string)
    (location : option string) : Response :=
  {| status := st; reason := ""; read := body;
     getheader := fun name =>
       if String.eqb name "Location" then location else None |}.

Definition scripted (c : Call string) (w : list Response)
  : Response * list Response :=
  match w with
  | r :: w' => (r, w')
  | [] => (response 500 "" None, [])
  end.

Definition feed_parser (s : string) : option string :=
  if Py.startswith "<feed" s then Some s else None.

Definition entry_parser (s : string) : option string :=
  if Py.startswith "<entry" s then Some s else None.

Definition form (fields : list (string * option string)) : string :=
  String.concat "&" (map (fun kv => fst kv +:+ "=" +:+ Py.str (snd kv)) fields).

Definition externals : Externals :=
  {| Data := string; Feed := string; Entry := string;
     World := list Response;
     transport := scripted;
     GDataFeedFromString := feed_parser;
     EntryFromString := entry_parser;
     urlencode := form |}.

(** The environment before any call, with the responses to come. *)
Definition script (rs : list Response) : Env (X := externals) :=
  @Build_Env externals rs [].

(** A fresh service object, and one that holds a captcha challenge. *)
Definition fresh : GDataService :=
  GDataService_init (Some "user@example.com") (Some "secret") (Some "GOOGLE")
    (Some "cl") (Some "app") (Some "www.google.com") None.

Definition challenged : GDataService :=
  set_captcha_url (Some "https://www.google.com/accounts/Captcha/old")
    (set_captcha_token (Some "OLD") fresh).

(** A body of several lines. *)
Definition lines (ls : list string) : string :=
  String.concat (String Py.LF EmptyString) ls.

End Stub.

(** ** Further observations and the query URI *)

(** Every character of a string passes a test. *)
Fixpoint string_forall (p : ascii -> bool) (s : string) : bool :=
  match s with
  | EmptyString => true
  | String c s' => p c && string_forall p s'
  end.

Section Headers.
Context {X : Externals}.

(** The headers of a call on [AtomService]. *)
Definition call_headers (c : Call Data) : option Headers :=
  match c with
  | AtomService_Get _ h => Some h
  | AtomService_Post _ _ h _ _ => Some h
  | AtomService_Put _ _ h _ _ => Some h
  | AtomService_Delete _ h _ _ => Some h
  | HTTPSConnection_request _ _ _ _ _ => None
  end.

(** The headers of the first call made on the transport between two
    environments. *)
Definition sent_headers (before after : Env) : option Headers :=
  trace after !! length (trace before) ≫= call_headers.

(** The calls made on the transport between two environments. *)
Definition calls_made (before after : Env) : list (Call Data) :=
  List.skipn (length (trace before)) (trace after).

End Headers.

(** The characters [urllib.quote] never escapes. *)
Definition always_safe : string :=
  "ABCDEFGHIJKLMNOPQRSTUVWXYZabcdefghijklmnopqrstuvwxyz0123456789_.-".

Definition hex_digit (n : nat) : ascii :=
  match String.get n "0123456789ABCDEF" with
  | Some c => c
  | None => "0"%char
  end.

(** ['%%%02X' % ord(c)]. *)
Definition percent_encode (c : ascii) : string :=
  let n := nat_of_ascii c in
  String "%" (String (hex_digit (n / 16)) (String (hex_digit (n mod 16)) "")).

(** [urllib.quote_plus(s)] with its default [safe='']: a space becomes a
    plus sign, a character of [always_safe] stays, any other character
    becomes a percent sign and two upper-case hexadecimal digits. *)
Fixpoint quote_plus (s : string) : string :=
  match s with
  | EmptyString => EmptyString
  | String c s' =>
      (if Ascii.eqb c " " then "+"
       else if Py.char_in c always_safe then String c EmptyString
       else percent_encode c) +:+ quote_plus s'
  end.

(** The characters an encoded category is made of. *)
Definition encoded_char (c : ascii) : bool :=
  Py.char_in c always_safe || Ascii.eqb c "+" || Ascii.eqb c "%".

(** The reading back of an encoded string, used to show that the
    encoding loses nothing: a plus sign is a space, a percent sign with
    two hexadecimal digits is the character of that code. *)
Definition hex_value (c : ascii) : nat :=
  let n := nat_of_ascii c in
  if ((48 <=? n) && (n <=? 57))%nat then n - 48
  else if ((65 <=? n) && (n <=? 70))%nat then n - 55
  else 0%nat.

Fixpoint unquote_plus (s : string) : string :=
  match s with
  | EmptyString => EmptyString
  | String c rest =>
      if Ascii.eqb c "+" then String " " (unquote_plus rest)
      else if Ascii.eqb c "%" then
        match rest with
        | String a (String b rest') =>
            String (ascii_of_nat (16 * hex_value a + hex_value b))
              (unquote_plus rest')
        | _ => String c (unquote_plus rest)
        end
      else String c (unquote_plus rest)
  end.

Section QueryUri.
(** [app_service.BuildUri(uri, url_params)], outside the module. *)
Variable BuildUri : string -> gmap string PyVal -> string.

(** The path [ToUri] hands to [BuildUri]. *)
Definition ToUri_path (self : Query) : string :=
  let q_feed := default "" (feed self) in
  let category_string :=
    String.concat "/" (map quote_plus (categories self)) in
  match categories self with
  | [] => q_feed
  | _ => q_feed +:+ "/-/" +:+ category_string
  end.

(** [Query.ToUri]. *)
Definition ToUri (self : Query) : string :=
  BuildUri (ToUri_path self) (items self).

End QueryUri.

(** * Properties *)

(** ** The string primitives *)

Example splitlines_crlf :
  Py.splitlines ("a" +:+ String Py.CR (String Py.LF "b") +:+ String Py.LF "")
  = ["a"; "b"].
Proof. reflexivity. Qed.

Example splitlines_blank :
  Py.splitlines (String Py.LF "") = [""] /\ Py.splitlines "" = [].
Proof. split; reflexivity. Qed.

Example lstrip_strips_a_set :
  Py.lstrip "Auth=" "Auth=DQAAAG" = "DQAAAG"
  /\ Py.lstrip "Auth=" "Auth=hunter2" = "nter2".
Proof. split; reflexivity. Qed.

Example find_examples :
  Py.find "?" "/a?b" = 2 /\ Py.find "gsessionid=" "/a?b" = -1.
Proof. split; reflexivity. Qed.

Example search_examples :
  search_gsessionid "/next?gsessionid=ABC" = Some "ABC"
  /\ search_gsessionid "/next?x=1&gsessionid=A-B" = Some "A"
  /\ search_gsessionid "/next?x=1" = None.
Proof. repeat split; reflexivity. Qed.

Lemma append_nil_l (s : string) : "" +:+ s = s.
Proof. reflexivity. Qed.

Lemma append_cons (c : ascii) (s t : string) :
  String c s +:+ t = String c (s +:+ t).
Proof. reflexivity. Qed.

Lemma prefix_app (p s : string) : String.prefix p (p +:+ s) = true.
Proof.
  induction p as [|c p IH]; simpl.
  - by destruct s.
  - destruct (ascii_dec c c); [exact IH | congruence].
Qed.

Lemma prefix_split (p s : string) :
  String.prefix p s = true -> exists t, s = p +:+ t.
Proof.
  revert s; induction p as [|c p IH]; intros s Hp.
  - by exists s.
  - destruct s as [|d s]; simpl in Hp; [discriminate|].
    destruct (ascii_dec c d) as [->|]; [|discriminate].
    destruct (IH _ Hp) as [t ->]. by exists t.
Qed.

Lemma find_from_unfold (i : Z) (sub s : string) :
  Py.find_from i sub s =
  if String.prefix sub s then i
  else match s with
       | EmptyString => -1
       | String _ s' => Py.find_from (i + 1) sub s'
       end.
Proof. by destruct s. Qed.

(** [find] is negative exactly when the string has no such substring. *)
Lemma find_from_substring (i : Z) (sub s : string) :
  0 <= i ->
  (0 <= Py.find_from i sub s <-> exists pre post, s = pre +:+ sub +:+ post).
Proof.
  revert i; induction s as [|c s IH]; intros i Hi;
    rewrite find_from_unfold.
  - destruct (String.prefix sub "") eqn:Hp.
    + split; [intros _ | lia].
      destruct (prefix_split _ _ Hp) as [t Ht]. by exists "", t.
    + split; [lia|]. intros (pre & post & Heq).
      destruct pre, sub; try discriminate Heq. discriminate Hp.
  - destruct (String.prefix sub (String c s)) eqn:Hp.
    + split; [intros _ | lia].
      destruct (prefix_split _ _ Hp) as [t Ht]. by exists "", t.
    + rewrite (IH (i + 1)) by lia. split.
      * intros (pre & post & ->). by exists (String c pre), post.
      * intros (pre & post & Heq). destruct pre as [|d pre].
        -- rewrite Heq, append_nil_l, prefix_app in Hp. discriminate.
        -- rewrite append_cons in Heq. injection Heq as -> ->.
           by exists pre, post.
Qed.

Lemma find_substring (sub s : string) :
  0 <= Py.find sub s <-> exists pre post, s = pre +:+ sub +:+ post.
Proof. apply find_from_substring. lia. Qed.

Lemma find_absent (sub s : string) :
  Py.find sub s < 0 <-> ~ exists pre post, s = pre +:+ sub +:+ post.
Proof. rewrite <- find_substring. lia. Qed.

(** ** Programmatic login *)

Section Login.
Context {X : Externals}.

Lemma login_200_line_skip (self : GDataService) (l : string) :
  Py.startswith "Auth=" l = false -> login_200_line self l = self.
Proof. unfold login_200_line. by intros ->. Qed.

Lemma login_200_line_auth (self : GDataService) (l : string) :
  Py.startswith "Auth=" l = true ->
  login_200_line self l =
  set_captcha_url None
    (set_captcha_token None
       (set_auth_type (Some PROGRAMMATIC_AUTH_LABEL)
          (set_auth_token (Some (Py.lstrip "Auth=" l)) self))).
Proof. unfold login_200_line. by intros ->. Qed.

(** The loop over a 200 response leaves everything alone when no line
    starts with [Auth=]. *)
Lemma fold_200_no_auth (lines : list string) (self : GDataService) :
  existsb (Py.startswith "Auth=") lines = false ->
  foldl login_200_line self lines = self.
Proof.
  revert self; induction lines as [|l lines IH]; intros self H; [done|].
  cbn [existsb] in H. apply orb_false_elim in H as [Hl Hrest].
  cbn [foldl]. rewrite login_200_line_skip by done. by apply IH.
Qed.

Lemma fold_200_keeps_cleared (lines : list string) (self : GDataService) :
  captcha_token self = None -> captcha_url self = None ->
  captcha_token (foldl login_200_line self lines) = None
  /\ captcha_url (foldl login_200_line self lines) = None.
Proof.
  revert self; induction lines as [|l lines IH]; intros self Ht Hu; [done|].
  cbn [foldl]. destruct (Py.startswith "Auth=" l) eqn:Hl.
  - rewrite login_200_line_auth by done. by apply IH.
  - rewrite login_200_line_skip by done. by apply IH.
Qed.

Lemma fold_200_clears (lines : list string) (self : GDataService) :
  existsb (Py.startswith "Auth=") lines = true ->
  captcha_token (foldl login_200_line self lines) = None
  /\ captcha_url (foldl login_200_line self lines) = None.
Proof.
  revert self; induction lines as [|l lines IH]; intros self H; [done|].
  cbn [existsb foldl] in *. destruct (Py.startswith "Auth=" l) eqn:Hl.
  - rewrite login_200_line_auth by done. by apply fold_200_keeps_cleared.
  - rewrite login_200_line_skip by done. by apply IH.
Qed.

(** The token and its type go together through the loop. *)
Lemma fold_200_auth (lines : list string) (self : GDataService) :
  let self' := foldl login_200_line self lines in
  (auth_token self' = auth_token self /\ auth_type self' = auth_type self)
  \/ (is_set (auth_token self') = true /\ is_set (auth_type self') = true).
Proof.
  revert self; induction lines as [|l lines IH]; intros self; [by left|].
  cbn [foldl]. cbv zeta in IH.
  destruct (IH (login_200_line self l)) as [[Ht Hy]|?]; [|by right].
  cbv zeta. rewrite Ht, Hy. destruct (Py.startswith "Auth=" l) eqn:Hl.
  - rewrite login_200_line_auth by done. by right.
  - rewrite login_200_line_skip by done. by left.
Qed.

(** One step of the loop over a 403 response, by the case of the line. *)
Lemma login_403_line_cases (self : GDataService) (el : option string)
    (l : string) :
  exists self' el',
    login_403_line (self, el) l = (self', el')
    /\ el' = (if Py.startswith "Error=" l then Some l else el)
    /\ auth_token self' = auth_token self
    /\ auth_type self' = auth_type self
    /\ gsessionid self' = gsessionid self.
Proof.
  unfold login_403_line.
  destruct (Py.startswith "Error=" l); [by eexists _, _|].
  destruct (Py.startswith "CaptchaToken=" l); [by eexists _, _|].
  destruct (Py.startswith "CaptchaUrl=" l); by eexists _, _.
Qed.

(** The loop over a 403 response leaves [error_line] at the last line
    that starts with [Error=], and touches the captcha fields only. *)
Lemma fold_403_error_line (lines : list string) (self : GDataService)
    (error_line : option string) :
  (foldl login_403_line (self, error_line) lines).2 =
  match last (List.filter (Py.startswith "Error=") lines) with
  | Some e => Some e
  | None => error_line
  end.
Proof.
  revert self error_line; induction lines as [|l lines IH];
    intros self error_line; [done|].
  cbn [foldl List.filter].
  destruct (login_403_line_cases self error_line l)
    as (self' & el' & -> & -> & _).
  rewrite IH. destruct (Py.startswith "Error=" l); [|done].
  destruct (List.filter _ lines) as [|e es] eqn:Hf; [done|].
  rewrite last_cons_cons. destruct (last (e :: es)) eqn:Hlast; [done|].
  by apply last_None in Hlast.
Qed.

Lemma fold_403_auth (lines : list string) (self : GDataService)
    (error_line : option string) :
  let self' := (foldl login_403_line (self, error_line) lines).1 in
  auth_token self' = auth_token self /\ auth_type self' = auth_type self
  /\ gsessionid self' = gsessionid self.
Proof.
  revert self error_line; induction lines as [|l lines IH];
    intros self error_line; [done|].
  cbn [foldl]. cbv zeta in *.
  destruct (login_403_line_cases self error_line l)
    as (self' & el' & -> & _ & <- & <- & <-).
  apply IH.
Qed.

Lemma no_error_line (body : string) :
  Forall (fun l => Py.startswith "Error=" l = false) (Py.splitlines body) ->
  last_error_line body = None.
Proof.
  unfold last_error_line. intros H.
  induction H as [|l ls Hl _ IH]; [done|]. simpl. by rewrite Hl.
Qed.

(** C6, as the code has it: a login response whose status is neither 200
    nor 403 raises nothing; the call returns [None] and the session is what
    it was, the login request being the only call made. *)
Theorem ProgrammaticLogin_other_status (self : GDataService)
    (captcha_token captcha_response : option string) (env : Env) :
  status (login_response self captcha_token captcha_response env) <> 200 ->
  status (login_response self captcha_token captcha_response env) <> 403 ->
  ProgrammaticLogin self captcha_token captcha_response env =
  (Return VNone, self,
   (request (login_request self captcha_token captcha_response) env).2).
Proof.
  unfold ProgrammaticLogin, login_response.
  destruct (request _ env) as [r env1]; simpl. intros H200 H403.
  destruct (Z.eqb_spec (status r) 200); [done|].
  by destruct (Z.eqb_spec (status r) 403).
Qed.

(** C10: a 403 response whose body has no line that starts with [Error=]
    makes the dispatch read the unassigned local [error_line]: the call
    ends with the interpreter's [UnboundLocalError], which is none of the
    error kinds of the library, and it does not return. *)
Theorem ProgrammaticLogin_403_unbound_error_line (self : GDataService)
    (captcha_token captcha_response : option string) (env : Env) :
  status (login_response self captcha_token captcha_response env) = 403 ->
  Forall (fun l => Py.startswith "Error=" l = false)
    (Py.splitlines
       (read (login_response self captcha_token captcha_response env))) ->
  outcome (ProgrammaticLogin self captcha_token captcha_response env)
  = Raise (UnboundLocalError "error_line")
  /\ is_library_error (UnboundLocalError "error_line") = false.
Proof.
  unfold ProgrammaticLogin, login_response.
  destruct (request _ env) as [r env1]; simpl. intros H403 Hno.
  split; [|done]. rewrite H403. simpl.
  pose proof (fold_403_error_line (Py.splitlines (read r)) self None) as He.
  apply no_error_line in Hno. unfold last_error_line in Hno.
  rewrite Hno in He.
  destruct (foldl login_403_line (self, None) _) as [self' el].
  simpl in He. by subst el.
Qed.

(** C4, as the code has it: whatever the captcha state before the call,
    after a 200 response whose body has a line that starts with [Auth=],
    and after a 403 response whose last [Error=] line is not
    [Error=CaptchaRequired], the captcha token and the captcha url are
    both absent. *)
Theorem ProgrammaticLogin_clears_captcha (self : GDataService)
    (captcha_token captcha_response : option string) (env : Env) :
  let r := login_response self captcha_token captcha_response env in
  (status r = 200 /\ has_auth_line (read r) = true)
  \/ (status r = 403
      /\ exists e, last_error_line (read r) = Some e
                   /\ e <> "Error=CaptchaRequired") ->
  let self' :=
    service_after (ProgrammaticLogin self captcha_token captcha_response env)
  in
  _GetCaptchaToken self' = None /\ _GetCaptchaURL self' = None.
Proof.
  unfold service_after, ProgrammaticLogin, login_response, has_auth_line,
    last_error_line, _GetCaptchaToken, _GetCaptchaURL.
  destruct (request _ env) as [r env1]. cbn [fst snd].
  intros [[H200 Ha]|[H403 (e & He & Hne)]].
  - rewrite H200. cbn [Z.eqb Pos.eqb fst snd]. by apply fold_200_clears.
  - rewrite H403. cbn [Z.eqb Pos.eqb].
    pose proof (fold_403_error_line (Py.splitlines (read r)) self None) as Hel.
    rewrite He in Hel.
    destruct (foldl login_403_line (self, None) _) as [self' el].
    cbn [snd] in Hel. subst el.
    destruct (String.eqb_spec e "Error=CaptchaRequired"); [done|].
    by destruct (String.eqb e "Error=BadAuthentication").
Qed.

End Login.

(** What the loop over a 200 response stores: the line that starts with
    [Auth=] and comes last decides, and the token is that line with the
    characters A, u, t, h and = dropped from its left end. *)
Lemma fold_200_token {X : Externals} (lines : list string)
    (self : GDataService) (l : string) :
  last (List.filter (Py.startswith "Auth=") lines) = Some l ->
  auth_token (foldl login_200_line self lines) = Some (Py.lstrip "Auth=" l)
  /\ auth_type (foldl login_200_line self lines)
     = Some PROGRAMMATIC_AUTH_LABEL.
Proof.
  revert self; induction lines as [|x lines IH]; intros self; [done|].
  cbn [foldl List.filter]. destruct (Py.startswith "Auth=" x) eqn:Hx.
  - destruct (List.filter _ lines) as [|e es] eqn:Hf.
    + intros [= ->]. rewrite fold_200_no_auth.
      * by rewrite login_200_line_auth.
      * clear -Hf. induction lines as [|y ys IHy]; [done|].
        cbn [List.filter existsb] in *.
        destruct (Py.startswith "Auth=" y); [done|]. by apply IHy.
    + rewrite last_cons_cons. apply IH.
  - rewrite login_200_line_skip by done. apply IH.
Qed.

Lemma lstrip_Auth_prefix (t : string) :
  Py.lstrip "Auth=" ("Auth=" +:+ t) = Py.lstrip "Auth=" t.
Proof. reflexivity. Qed.

(** The token is stored as sent when it starts with none of the
    characters of [Auth=]. *)
Lemma lstrip_Auth_exact (c : ascii) (t : string) :
  Py.char_in c "Auth=" = false ->
  Py.lstrip "Auth=" ("Auth=" +:+ String c t) = String c t.
Proof. intros H. rewrite lstrip_Auth_prefix. cbn [Py.lstrip]. by rewrite H. Qed.

(** The loop over the three lines of a captcha challenge. *)
Lemma fold_403_captcha_lines {X : Externals} (self : GDataService)
    (T U : string) :
  foldl login_403_line (self, None)
    ["Error=CaptchaRequired"; "CaptchaToken=" +:+ T; "CaptchaUrl=/" +:+ U]
  = (set_captcha_url
       (Some ("https://www.google.com/accounts/Captcha/" +:+ U))
       (set_captcha_token (Some (Py.lstrip "CaptchaToken=" T)) self),
     Some "Error=CaptchaRequired").
Proof. destruct T, U; reflexivity. Qed.

(** *** Login on the scripted transport *)

(** C2: the token of a 200 response is not stored as sent when it starts
    with one of the characters of [Auth=]: the body line [Auth=hunter2]
    leaves the token [nter2].  The type and the captcha fields are as the
    claim has them. *)
Theorem ProgrammaticLogin_Auth_token_stripped :
  let self' :=
    service_after
      (ProgrammaticLogin (X := Stub.externals) Stub.challenged None None
         (Stub.script
            [Stub.response 200
               (Stub.lines ["SID=s1"; "LSID=s2"; "Auth=hunter2"]) None])) in
  auth_token self' = Some "nter2"
  /\ auth_token self' <> Some "hunter2"
  /\ auth_type self' = Some PROGRAMMATIC_AUTH_LABEL
  /\ captcha_token self' = None
  /\ captcha_url self' = None.
Proof. vm_compute. repeat split; discriminate. Qed.

(** C3: the captcha token of a challenge is not retained as sent when it
    starts with one of the characters of [CaptchaToken=]: the body line
    [CaptchaToken=token123] leaves the captcha token [123].  The call
    fails with [CaptchaRequired] and the url is as the claim has it. *)
Theorem ProgrammaticLogin_CaptchaToken_stripped :
  let result :=
    ProgrammaticLogin (X := Stub.externals) Stub.fresh None None
      (Stub.script
         [Stub.response 403
            (Stub.lines ["Error=CaptchaRequired"; "CaptchaToken=token123";
                         "CaptchaUrl=/U"]) None]) in
  outcome result = Raise (CaptchaRequired "Captcha Required")
  /\ captcha_token (service_after result) = Some "123"
  /\ captcha_token (service_after result) <> Some "token123"
  /\ captcha_url (service_after result)
     = Some "https://www.google.com/accounts/Captcha/U".
Proof. vm_compute. repeat split; discriminate. Qed.

(** C4 as stated fails: a 200 response without a line that starts with
    [Auth=], and a response of status 500, both end the call normally, and
    the captcha challenge held before the call is still there. *)
Lemma ProgrammaticLogin_keeps_captcha_counterexample :
  let after (r : Response) :=
    ProgrammaticLogin (X := Stub.externals) Stub.challenged None None
      (Stub.script [r]) in
  let r200 := Stub.response 200 (Stub.lines ["SID=s1"; "LSID=s2"]) None in
  let r500 := Stub.response 500 "" None in
  outcome (after r200) = Return VNone
  /\ captcha_token (service_after (after r200)) = Some "OLD"
  /\ captcha_url (service_after (after r200))
     = Some "https://www.google.com/accounts/Captcha/old"
  /\ outcome (after r500) = Return VNone
  /\ captcha_token (service_after (after r500)) = Some "OLD"
  /\ captcha_url (service_after (after r500))
     = Some "https://www.google.com/accounts/Captcha/old".
Proof. vm_compute. repeat split. Qed.

Lemma ProgrammaticLogin_clears_captcha_witness :
  let result :=
    ProgrammaticLogin (X := Stub.externals) Stub.challenged None None
      (Stub.script
         [Stub.response 403 (Stub.lines ["Error=BadAuthentication"]) None]) in
  captcha_token Stub.challenged = Some "OLD"
  /\ _GetCaptchaToken (service_after result) = None
  /\ _GetCaptchaURL (service_after result) = None.
Proof.
  split; [reflexivity|].
  apply (ProgrammaticLogin_clears_captcha (X := Stub.externals)
           Stub.challenged None None
           (Stub.script
              [Stub.response 403 (Stub.lines ["Error=BadAuthentication"])
                 None])).
  right. split; [reflexivity|].
  exists "Error=BadAuthentication". split; [reflexivity | discriminate].
Defined.

(** C6 as stated fails: a response of status 500 raises nothing. *)
Lemma ProgrammaticLogin_500_counterexample :
  let result :=
    ProgrammaticLogin (X := Stub.externals) Stub.fresh None None
      (Stub.script [Stub.response 500 "Internal Server Error" None]) in
  outcome result = Return VNone /\ ~ exists e, outcome result = Raise e.
Proof. vm_compute. split; [reflexivity|]. intros [e He]. discriminate. Qed.

Lemma ProgrammaticLogin_other_status_witness :
  let env :=
    Stub.script [Stub.response 500 "Internal Server Error" None] in
  ProgrammaticLogin (X := Stub.externals) Stub.fresh None None env =
  (Return VNone, Stub.fresh,
   (request (login_request Stub.fresh None None) env).2).
Proof.
  apply (ProgrammaticLogin_other_status (X := Stub.externals));
    vm_compute; discriminate.
Defined.

Lemma ProgrammaticLogin_403_unbound_error_line_witness :
  let result :=
    ProgrammaticLogin (X := Stub.externals) Stub.fresh None None
      (Stub.script
         [Stub.response 403 (Stub.lines ["CaptchaToken=T"; "Info=x"]) None])
  in
  outcome result = Raise (UnboundLocalError "error_line")
  /\ is_library_error (UnboundLocalError "error_line") = false.
Proof.
  apply (ProgrammaticLogin_403_unbound_error_line (X := Stub.externals)).
  - reflexivity.
  - vm_compute. repeat constructor.
Defined.

(** ** AuthSub tokens *)

(** C7: when the type of the token is not the AuthSub label, whatever the
    token, [UpgradeToSessionToken] and [RevokeAuthSubToken] raise
    [NonAuthSubToken]; the service object is what it was and so is the
    environment, whose trace holds every call made on the transport. *)
Theorem AuthSub_methods_guard {X : Externals} (self : GDataService)
    (env : Env) :
  auth_type self <> Some AUTHSUB_AUTH_LABEL ->
  UpgradeToSessionToken self env = (Raise NonAuthSubToken, self, env)
  /\ RevokeAuthSubToken self env = (Raise NonAuthSubToken, self, env).
Proof.
  intros H. unfold UpgradeToSessionToken, RevokeAuthSubToken.
  by destruct (decide (auth_type self ≠ Some AUTHSUB_AUTH_LABEL)).
Qed.

Lemma AuthSub_methods_guard_witness :
  let self :=
    set_auth_type (Some PROGRAMMATIC_AUTH_LABEL)
      (set_auth_token (Some "DQAAAG") Stub.fresh) in
  let env := Stub.script [Stub.response 200 "Token=new" None] in
  auth_type self <> Some AUTHSUB_AUTH_LABEL
  /\ UpgradeToSessionToken self env = (Raise NonAuthSubToken, self, env)
  /\ RevokeAuthSubToken self env = (Raise NonAuthSubToken, self, env).
Proof.
  split; [discriminate|].
  apply (AuthSub_methods_guard (X := Stub.externals)). discriminate.
Defined.

(** ** CRUD operations *)

Section Crud.
Context {X : Externals}.

Lemma request_trace (c : Call Data) (env : Env) :
  trace (request c env).2 = trace env ++ [c].
Proof. unfold request. by destruct (transport c (world env)). Qed.

(** Each CRUD method is [execute_rec] at its own call. *)
Ltac crud_cases IH :=
  unfold first_call, crud_call, success_status, success_value;
  match goal with
  | |- context [request ?c ?env] => destruct (request c env) as [r env1]
  end;
  repeat match goal with
         | |- context [if ?b then _ else _] => destruct b
         | |- context [match getheader ?r ?h with _ => _ end] =>
             destruct (getheader r h)
         end;
  try reflexivity; try apply IH.

Lemma Get_rec_execute (fuel : nat) self uri extra_headers rr env :
  Get_rec fuel self uri extra_headers rr env
  = execute_rec fuel Crud_Get self uri extra_headers rr env.
Proof.
  revert self uri extra_headers rr env.
  induction fuel as [|fuel IH]; intros; cbn [Get_rec execute_rec];
    crud_cases IH.
Qed.

Lemma Post_rec_execute (fuel : nat) self data uri extra_headers up ep rr env :
  Post_rec fuel self data uri extra_headers up ep rr env
  = execute_rec fuel (Crud_Post data up ep) self uri extra_headers rr env.
Proof.
  revert self uri extra_headers rr env.
  induction fuel as [|fuel IH]; intros; cbn [Post_rec execute_rec];
    crud_cases IH.
Qed.

Lemma Put_rec_execute (fuel : nat) self data uri extra_headers up ep rr env :
  Put_rec fuel self data uri extra_headers up ep rr env
  = execute_rec fuel (Crud_Put data up ep) self uri extra_headers rr env.
Proof.
  revert self uri extra_headers rr env.
  induction fuel as [|fuel IH]; intros; cbn [Put_rec execute_rec];
    crud_cases IH.
Qed.

Lemma Delete_rec_execute (fuel : nat) self uri extra_headers up ep rr env :
  Delete_rec fuel self uri extra_headers up ep rr env
  = execute_rec fuel (Crud_Delete up ep) self uri extra_headers rr env.
Proof.
  revert self uri extra_headers rr env.
  induction fuel as [|fuel IH]; intros; cbn [Delete_rec execute_rec];
    crud_cases IH.
Qed.

Lemma crud_execute (op : Crud) self uri extra_headers rr env :
  crud op self uri extra_headers rr env
  = execute_rec (Z.to_nat rr) op self uri extra_headers rr env.
Proof.
  destruct op; unfold crud, Get, Post, Put, Delete.
  - apply Get_rec_execute.
  - apply Post_rec_execute.
  - apply Put_rec_execute.
  - apply Delete_rec_execute.
Qed.

(** One step of [execute_rec], with the first response named. *)
Lemma execute_rec_unfold (fuel : nat) (op : Crud) self uri extra_headers
    rr env :
  let r := (request (first_call op self uri extra_headers) env).1 in
  let env1 := (request (first_call op self uri extra_headers) env).2 in
  execute_rec fuel op self uri extra_headers rr env =
  if status r =? success_status op then
    (Return (success_value op (read r)), self, env1)
  else if status r =? 302 then
    if rr >? 0 then
      match getheader r "Location" with
      | Some location =>
          match fuel with
          | S fuel' =>
              execute_rec fuel' op (learn_gsessionid self location) location
                (Some (authorize self (default ∅ extra_headers)))
                (rr - 1) env1
          | O => (OutOfFuel, learn_gsessionid self location, env1)
          end
      | None =>
          (Raise (RequestError (status r)
                    "302 received without Location header" (read r)),
           self, env1)
      end
    else
      (Raise (RequestError (status r)
                "Redirect received, but redirects_remaining <= 0" (read r)),
       self, env1)
  else (Raise (RequestError (status r) (reason r) (read r)), self, env1).
Proof.
  cbv zeta. destruct fuel; cbn [execute_rec];
    by destruct (request _ env) as [r env1].
Qed.

(** The fuel of the methods is enough: no call ends with [OutOfFuel]. *)
Lemma execute_rec_total (fuel : nat) (op : Crud) self uri extra_headers
    rr env :
  (Z.to_nat rr <= fuel)%nat ->
  outcome (execute_rec fuel op self uri extra_headers rr env) <> OutOfFuel.
Proof.
  revert self uri extra_headers rr env.
  induction fuel as [|fuel IH]; intros self uri eh rr env Hfuel;
    rewrite execute_rec_unfold; cbv zeta;
    destruct (request _ env) as [r env1]; cbn [fst snd];
    destruct (status r =? success_status op); try done;
    destruct (status r =? 302); try done;
    destruct (Z.gtb_spec rr 0); try done;
    destruct (getheader r "Location"); try done.
  - lia.
  - apply IH. lia.
Qed.

Lemma crud_total (op : Crud) self uri extra_headers rr env :
  outcome (crud op self uri extra_headers rr env) <> OutOfFuel.
Proof. rewrite crud_execute. by apply execute_rec_total. Qed.

(** A CRUD method changes nothing of the service object but the session
    id. *)
Lemma learn_gsessionid_auth self location :
  auth_token (learn_gsessionid self location) = auth_token self
  /\ auth_type (learn_gsessionid self location) = auth_type self.
Proof. unfold learn_gsessionid. by destruct (search_gsessionid location). Qed.

Lemma execute_rec_auth (fuel : nat) (op : Crud) self uri extra_headers
    rr env :
  let self' :=
    service_after (execute_rec fuel op self uri extra_headers rr env) in
  auth_token self' = auth_token self /\ auth_type self' = auth_type self.
Proof.
  revert self uri extra_headers rr env.
  induction fuel as [|fuel IH]; intros self uri eh rr env;
    rewrite execute_rec_unfold; cbv zeta;
    destruct (request _ env) as [r env1]; cbn [fst snd];
    destruct (status r =? success_status op); try done;
    destruct (status r =? 302); try done;
    destruct (rr >? 0); try done;
    destruct (getheader r "Location") as [location|]; try done.
  - apply learn_gsessionid_auth.
  - cbv zeta in IH.
    destruct (IH (learn_gsessionid self location) location
                (Some (authorize self (default ∅ eh))) (rr - 1) env1)
      as [-> ->].
    apply learn_gsessionid_auth.
Qed.

(** The first call of a method is on the trace right after what was
    there. *)
Lemma execute_rec_trace (fuel : nat) (op : Crud) self uri extra_headers
    rr env :
  exists rest,
    trace (env_after (execute_rec fuel op self uri extra_headers rr env))
    = trace env ++ first_call op self uri extra_headers :: rest.
Proof.
  revert self uri extra_headers rr env.
  induction fuel as [|fuel IH]; intros self uri eh rr env;
    rewrite execute_rec_unfold; cbv zeta;
    pose proof (request_trace (first_call op self uri eh) env) as Ht;
    destruct (request _ env) as [r env1]; cbn [fst snd] in *;
    destruct (status r =? success_status op); try (by exists []);
    destruct (status r =? 302); try (by exists []);
    destruct (rr >? 0); try (by exists []);
    destruct (getheader r "Location") as [location|]; try (by exists []).
  destruct (IH (learn_gsessionid self location) location
              (Some (authorize self (default ∅ eh))) (rr - 1) env1)
    as [rest ->].
  rewrite Ht, <- app_assoc. by eexists.
Qed.

Lemma crud_sent_uri (op : Crud) self uri extra_headers rr env :
  sent_uri env (env_after (crud op self uri extra_headers rr env))
  = Some (with_gsessionid self uri).
Proof.
  rewrite crud_execute. unfold sent_uri.
  destruct (execute_rec_trace (Z.to_nat rr) op self uri extra_headers rr env)
    as [rest ->].
  rewrite list_lookup_middle by done. by destruct op.
Qed.

End Crud.

Section Redirects.
Context {X : Externals}.

Lemma learn_gsessionid_found self location sid :
  search_gsessionid location = Some sid ->
  gsessionid (learn_gsessionid self location) = Some sid.
Proof. unfold learn_gsessionid. by intros ->. Qed.

Lemma learn_gsessionid_not_found self location :
  search_gsessionid location = None -> learn_gsessionid self location = self.
Proof. unfold learn_gsessionid. by intros ->. Qed.

(** A method whose first response is a 302, one step on. *)
Lemma crud_302 (op : Crud) self uri extra_headers rr env :
  let r := (request (first_call op self uri extra_headers) env).1 in
  let env1 := (request (first_call op self uri extra_headers) env).2 in
  status r = 302 ->
  crud op self uri extra_headers rr env =
  if rr >? 0 then
    match getheader r "Location" with
    | Some location =>
        crud op (learn_gsessionid self location) location
          (Some (authorize self (default ∅ extra_headers))) (rr - 1) env1
    | None =>
        (Raise (RequestError 302 "302 received without Location header"
                  (read r)), self, env1)
    end
  else
    (Raise (RequestError 302
              "Redirect received, but redirects_remaining <= 0" (read r)),
     self, env1).
Proof.
  intros r env1 H302. rewrite crud_execute, execute_rec_unfold.
  fold r env1. rewrite H302.
  replace (302 =? success_status op) with false by (by destruct op).
  cbn [Z.eqb Pos.eqb]. destruct (Z.gtb_spec rr 0) as [Hpos|]; [|done].
  destruct (getheader r "Location") as [location|]; [|done].
  rewrite crud_execute.
  replace (Z.to_nat rr) with (S (Z.to_nat (rr - 1))) by lia. done.
Qed.

(** C1: a CRUD method whose first response has status 302.  With a
    positive budget and a [Location] header the method stores the session
    id found in the location, if there is one, and is called again on the
    location with the headers sent and one redirect less; with a positive
    budget and no [Location] header, and with a budget of zero or less
    whatever the header, it raises [RequestError].  In particular [Get]
    with a budget of 1, redirected to [/next?gsessionid=ABC] and then
    answered by a 200 whose body is an entry, returns the entry and leaves
    the session id [ABC]. *)
Theorem crud_redirect (op : Crud) self uri extra_headers rr env :
  let r := (request (first_call op self uri extra_headers) env).1 in
  let env1 := (request (first_call op self uri extra_headers) env).2 in
  let sent_headers := authorize self (default ∅ extra_headers) in
  status r = 302 ->
  (0 < rr -> forall location, getheader r "Location" = Some location ->
     crud op self uri extra_headers rr env
     = crud op (learn_gsessionid self location) location (Some sent_headers)
         (rr - 1) env1
     /\ (forall sid, search_gsessionid location = Some sid ->
           gsessionid (learn_gsessionid self location) = Some sid)
     /\ (search_gsessionid location = None ->
           learn_gsessionid self location = self))
  /\ (0 < rr -> getheader r "Location" = None ->
        crud op self uri extra_headers rr env
        = (Raise (RequestError 302 "302 received without Location header"
                    (read r)), self, env1))
  /\ (rr <= 0 ->
        crud op self uri extra_headers rr env
        = (Raise (RequestError 302
                    "Redirect received, but redirects_remaining <= 0"
                    (read r)), self, env1))
  /\ (op = Crud_Get -> rr = 1 ->
      getheader r "Location" = Some "/next?gsessionid=ABC" ->
      let self1 := learn_gsessionid self "/next?gsessionid=ABC" in
      let r2 :=
        (request (first_call Crud_Get self1 "/next?gsessionid=ABC"
                    (Some sent_headers)) env1).1 in
      status r2 = 200 ->
      GDataFeedFromString (read r2) = None ->
      forall entry, EntryFromString (read r2) = Some entry ->
      outcome (Get self uri extra_headers 1 env) = Return (VEntry entry)
      /\ gsessionid (service_after (Get self uri extra_headers 1 env))
         = Some "ABC").
Proof.
  intros r env1 sent_headers H302.
  pose proof (crud_302 op self uri extra_headers rr env H302) as Hstep.
  fold r env1 sent_headers in Hstep.
  repeat split.
  - rewrite Hstep. destruct (Z.gtb_spec rr 0); [|lia]. by rewrite H0.
  - intros sid. apply learn_gsessionid_found.
  - apply learn_gsessionid_not_found.
  - intros Hpos Hloc. rewrite Hstep.
    destruct (Z.gtb_spec rr 0); [|lia]. by rewrite Hloc.
  - intros Hle. rewrite Hstep. destruct (Z.gtb_spec rr 0); [lia|done].
  - subst op rr. cbn [crud] in Hstep. rewrite Hstep, H1.
    cbn [Z.gtb Z.compare]. unfold Get. cbn [Z.sub Z.add Z.opp Z.pos_sub].
    rewrite Get_rec_execute, execute_rec_unfold.
    cbv zeta in H2. rewrite H2. cbn [success_status Z.eqb Pos.eqb].
    unfold outcome, success_value, parse_result. cbn [fst].
    by rewrite H3, H4.
  - subst op rr. cbn [crud] in Hstep. rewrite Hstep, H1.
    cbn [Z.gtb Z.compare]. unfold Get. cbn [Z.sub Z.add Z.opp Z.pos_sub].
    rewrite Get_rec_execute, execute_rec_unfold.
    cbv zeta in H2. rewrite H2. cbn [success_status Z.eqb Pos.eqb].
    unfold service_after. cbn [fst snd].
    by apply learn_gsessionid_found.
Qed.

(** C8, as the code has it: with a session id known, the URI of the call
    on the transport is the given URI when the text [gsessionid=] occurs
    in it, anywhere; else it is the given URI followed by [&gsessionid=]
    and the id when the URI has a question mark, and by [?gsessionid=] and
    the id when it has none. *)
Theorem crud_session_uri (op : Crud) self uri extra_headers rr env sid :
  gsessionid self = Some sid ->
  let sent :=
    sent_uri env (env_after (crud op self uri extra_headers rr env)) in
  (Py.find "gsessionid=" uri < 0 -> 0 <= Py.find "?" uri ->
     sent = Some (uri +:+ "&gsessionid=" +:+ sid))
  /\ (Py.find "gsessionid=" uri < 0 -> Py.find "?" uri < 0 ->
        sent = Some (uri +:+ "?gsessionid=" +:+ sid))
  /\ (0 <= Py.find "gsessionid=" uri -> sent = Some uri).
Proof.
  intros Hsid sent. subst sent. rewrite crud_sent_uri.
  unfold with_gsessionid. rewrite Hsid.
  destruct (Z.ltb_spec (Py.find "gsessionid=" uri) 0);
    destruct (Z.gtb_spec (Py.find "?" uri) (-1)); repeat split; (done || lia).
Qed.

End Redirects.

(** *** CRUD on the scripted transport *)

Lemma crud_redirect_witness :
  let env :=
    Stub.script [Stub.response 302 "" (Some "/next?gsessionid=ABC");
                 Stub.response 200 "<entry>e1</entry>" None] in
  let result := Get (X := Stub.externals) Stub.fresh "/feeds/items" None 1 env in
  outcome result = Return (VEntry (X := Stub.externals) "<entry>e1</entry>")
  /\ gsessionid (service_after result) = Some "ABC".
Proof.
  intros env result.
  assert (H302 :
    status (request (first_call (X := Stub.externals) Crud_Get Stub.fresh
                       "/feeds/items" None) env).1 = 302) by reflexivity.
  destruct (crud_redirect (X := Stub.externals) Crud_Get Stub.fresh
              "/feeds/items" None 1 env H302) as (_ & _ & _ & Hchase).
  apply Hchase; reflexivity.
Defined.

Lemma crud_session_uri_witness :
  let self := set_gsessionid (Some "S1") Stub.fresh in
  let env := Stub.script [Stub.response 200 "<feed/>" None] in
  gsessionid self = Some "S1"
  /\ sent_uri env
       (env_after
          (crud (X := Stub.externals) Crud_Get self "/feeds/items?q=a" None
             4 env))
     = Some "/feeds/items?q=a&gsessionid=S1"
  /\ sent_uri env
       (env_after
          (crud (X := Stub.externals) (Crud_Delete None true) self
             "/feeds/items/1" None 4 env))
     = Some "/feeds/items/1?gsessionid=S1".
Proof.
  intros self env. split; [reflexivity|]. split.
  - apply (crud_session_uri (X := Stub.externals) Crud_Get self
             "/feeds/items?q=a" None 4 env "S1" eq_refl);
      vm_compute; [reflexivity | discriminate].
  - apply (crud_session_uri (X := Stub.externals) (Crud_Delete None true)
             self "/feeds/items/1" None 4 env "S1" eq_refl);
      vm_compute; reflexivity.
Defined.

(** C8 as stated fails.  The text [gsessionid=] in the path of a URI
    without a query string keeps the session id from being appended,
    though the query string holds no [gsessionid]; and a query string
    that holds [gsessionid] without the equals sign gets the session id
    appended all the same. *)
Lemma crud_session_uri_counterexample :
  let self := set_gsessionid (Some "S1") Stub.fresh in
  let env := Stub.script [Stub.response 200 "<feed/>" None] in
  let sent (uri : string) :=
    sent_uri env
      (env_after (Get (X := Stub.externals) self uri None 4 env)) in
  (Py.find "gsessionid" (spec_query_string "/feeds/gsessionid=1/items") < 0
   /\ sent "/feeds/gsessionid=1/items" = Some "/feeds/gsessionid=1/items"
   /\ spec_with_gsessionid "S1" "/feeds/gsessionid=1/items"
      = "/feeds/gsessionid=1/items?gsessionid=S1")
  /\ (0 <= Py.find "gsessionid" (spec_query_string "/feeds/items?gsessionid")
      /\ sent "/feeds/items?gsessionid"
         = Some "/feeds/items?gsessionid&gsessionid=S1"
      /\ spec_with_gsessionid "S1" "/feeds/items?gsessionid"
         = "/feeds/items?gsessionid").
Proof. vm_compute. repeat split; discriminate. Qed.

(** ** The token and its type over the life of a service object *)

Section Invariant.
Context {X : Externals}.

Lemma ProgrammaticLogin_auth o self captcha_token captcha_response env :
  auth_effect o self
    (service_after
       (ProgrammaticLogin self captcha_token captcha_response env)).
Proof.
  unfold service_after, ProgrammaticLogin.
  destruct (request _ env) as [r env1].
  destruct (status r =? 200).
  - cbn [fst snd].
    destruct (fold_200_auth (Py.splitlines (read r)) self) as [[? ?]|[? ?]];
      [by apply effect_none | by apply effect_both_set].
  - destruct (status r =? 403); [|by apply effect_none].
    pose proof (fold_403_auth (Py.splitlines (read r)) self None) as Hauth.
    cbv zeta in Hauth.
    destruct (foldl login_403_line (self, None) _) as [self' el].
    cbn [fst] in Hauth. destruct Hauth as (Ht & Hy & _).
    destruct el as [e|]; [|by apply effect_none].
    destruct (String.eqb e "Error=CaptchaRequired"); [by apply effect_none|].
    destruct (String.eqb e "Error=BadAuthentication"); by apply effect_none.
Qed.

Lemma fold_upgrade_auth (lines : list string) (self : GDataService) :
  let self' := foldl upgrade_line self lines in
  auth_type self' = auth_type self
  /\ (auth_token self' = auth_token self
      \/ is_set (auth_token self') = true).
Proof.
  revert self; induction lines as [|l lines IH]; intros self;
    [by split; [|left]|].
  cbn [foldl]. cbv zeta in *.
  destruct (IH (upgrade_line self l)) as [-> Htok].
  unfold upgrade_line in *. destruct (Py.startswith "Token=" l); [|done].
  split; [done|]. right. by destruct Htok as [->|].
Qed.

Lemma UpgradeToSessionToken_auth o self env :
  auth_effect o self (service_after (UpgradeToSessionToken self env)).
Proof.
  unfold service_after, UpgradeToSessionToken.
  destruct (decide (auth_type self ≠ Some AUTHSUB_AUTH_LABEL)) as [|Hty];
    [by apply effect_none|].
  apply dec_stable in Hty.
  destruct (request _ env) as [r env1].
  destruct (status r =? 200); [|by apply effect_none]. cbn [fst snd].
  destruct (fold_upgrade_auth (Py.splitlines (read r)) self) as [Hy [Ht|Ht]].
  - by apply effect_none.
  - apply effect_both_set; [done|]. by rewrite Hy, Hty.
Qed.

Lemma RevokeAuthSubToken_auth o self env :
  auth_effect o self (service_after (RevokeAuthSubToken self env)).
Proof.
  unfold service_after, RevokeAuthSubToken.
  destruct (decide (auth_type self ≠ Some AUTHSUB_AUTH_LABEL));
    [by apply effect_none|].
  destruct (request _ env) as [r env1].
  destruct (status r =? 200);
    [by apply effect_both_cleared | by apply effect_none].
Qed.

Lemma crud_auth o op self uri extra_headers rr env :
  auth_effect o self
    (service_after (crud op self uri extra_headers rr env)).
Proof.
  rewrite crud_execute.
  destruct (execute_rec_auth (Z.to_nat rr) op self uri extra_headers rr env).
  by apply effect_none.
Qed.

Lemma GetEntry_auth o self uri extra_headers env :
  auth_effect o self (service_after (GetEntry self uri extra_headers env)).
Proof.
  pose proof (crud_auth o Crud_Get self uri extra_headers 4 env) as H.
  unfold GetEntry. cbn [crud] in H.
  destruct (Get self uri extra_headers 4 env) as [[res self'] env'].
  by destruct res as [[]| |].
Qed.

Lemma GetFeed_auth o self uri extra_headers env :
  auth_effect o self (service_after (GetFeed self uri extra_headers env)).
Proof.
  pose proof (crud_auth o Crud_Get self uri extra_headers 4 env) as H.
  unfold GetFeed. cbn [crud] in H.
  destruct (Get self uri extra_headers 4 env) as [[res self'] env'].
  by destruct res as [[]| |].
Qed.

Lemma step_auth (st : GDataService * Env) (o : PublicOp) :
  auth_effect o st.1 (step st o).1.
Proof.
  destruct st as [self env]. cbn [fst].
  destruct o as [v|ct cr| | |op uri eh rr|uri eh|uri eh]; cbn [step].
  - destruct v as [t|];
      [by apply effect_both_set | by apply effect_type_alone].
  - pose proof (ProgrammaticLogin_auth (Op_ProgrammaticLogin ct cr)
                  self ct cr env) as H.
    by destruct (ProgrammaticLogin _ _ _ _) as [[? ?] ?].
  - pose proof (UpgradeToSessionToken_auth Op_UpgradeToSessionToken self env)
      as H.
    by destruct (UpgradeToSessionToken _ _) as [[? ?] ?].
  - pose proof (RevokeAuthSubToken_auth Op_RevokeAuthSubToken self env) as H.
    by destruct (RevokeAuthSubToken _ _) as [[? ?] ?].
  - pose proof (crud_auth (Op_crud op uri eh rr) op self uri eh rr env) as H.
    by destruct (crud _ _ _ _ _ _) as [[? ?] ?].
  - pose proof (GetEntry_auth (Op_GetEntry uri eh) self uri eh env) as H.
    by destruct (GetEntry _ _ _ _) as [[? ?] ?].
  - pose proof (GetFeed_auth (Op_GetFeed uri eh) self uri eh env) as H.
    by destruct (GetFeed _ _ _ _) as [[? ?] ?].
Qed.

(** A token never stands without its type. *)
Lemma run_token_has_type (ops : list PublicOp) (st : GDataService * Env) :
  (is_set (auth_token st.1) = true -> is_set (auth_type st.1) = true) ->
  is_set (auth_token (run ops st).1) = true ->
  is_set (auth_type (run ops st).1) = true.
Proof.
  revert st; induction ops as [|o ops IH]; intros st Hst; [done|].
  apply IH.
  destruct (step_auth st o) as [Ht Hy|Ht Hy|Ht Hy|_ Ht Hy];
    rewrite ?Ht, ?Hy; done.
Qed.

(** They stand and fall together while no absent token is assigned. *)
Lemma run_type_iff_token (ops : list PublicOp) (st : GDataService * Env) :
  sets_no_absent_token ops = true ->
  is_set (auth_type st.1) = is_set (auth_token st.1) ->
  is_set (auth_type (run ops st).1) = is_set (auth_token (run ops st).1).
Proof.
  revert st; induction ops as [|o ops IH]; intros st Hops Hst; [done|].
  cbn [sets_no_absent_token forallb] in Hops.
  apply andb_prop in Hops as [Ho Hops]. apply IH; [done|].
  destruct (step_auth st o) as [Ht Hy|Ht Hy|Ht Hy| -> Ht Hy];
    rewrite ?Ht, ?Hy; done.
Qed.

(** C5, as the code has it: in every state reached from construction by
    public operations, with any arguments, a token that is set has its
    type set; and the type is set exactly when the token is, as long as
    the property [auth_token] was never assigned an absent token. *)
Theorem auth_type_and_auth_token (ops : list PublicOp)
    (email password account_type service source server : option string)
    (additional_headers : option Headers) (env : Env) :
  let self :=
    (run ops (GDataService_init email password account_type service source
                server additional_headers, env)).1 in
  (is_set (auth_token self) = true -> is_set (auth_type self) = true)
  /\ (sets_no_absent_token ops = true ->
      is_set (auth_type self) = is_set (auth_token self)).
Proof.
  split.
  - by apply run_token_has_type.
  - intros Hops. by apply run_type_iff_token.
Qed.

End Invariant.

(** C5 as stated fails: assigning an absent token to the property
    [auth_token] of a new service object sets the type and no token. *)
Lemma auth_type_without_token_counterexample :
  let self :=
    (run (X := Stub.externals) [Op_set_auth_token None]
       (Stub.fresh, Stub.script [])).1 in
  is_set (auth_type self) = true /\ is_set (auth_token self) = false
  /\ auth_type self = Some AUTHSUB_AUTH_LABEL /\ _GetAuthToken self = None.
Proof. vm_compute. repeat split. Qed.

Lemma auth_type_and_auth_token_witness :
  let ops :=
    [Op_set_auth_token (Some "CMDLu");
     Op_UpgradeToSessionToken (X := Stub.externals);
     Op_crud Crud_Get "/feeds/items" None 4;
     Op_RevokeAuthSubToken;
     Op_ProgrammaticLogin None None] in
  let env :=
    Stub.script [Stub.response 200 "Token=GD32CMCL25" None;
                 Stub.response 200 "<feed/>" None;
                 Stub.response 200 "" None;
                 Stub.response 200 "Auth=DQAAAG" None] in
  let self := (run ops (Stub.fresh, env)).1 in
  sets_no_absent_token ops = true
  /\ auth_token self = Some "DQAAAG"
  /\ is_set (auth_type self) = is_set (auth_token self).
Proof.
  intros ops env self. split; [reflexivity|]. split; [reflexivity|].
  apply (auth_type_and_auth_token (X := Stub.externals) ops
           (Some "user@example.com") (Some "secret") (Some "GOOGLE")
           (Some "cl") (Some "app") (Some "www.google.com") None env).
  reflexivity.
Defined.

(** ** Query *)

Lemma fget_key (a : Accessor) (self : Query) :
  fget a self = getitem_or_None self (accessor_key a).
Proof. by destruct a. Qed.

Lemma fset_key (a : Accessor) (self : Query) (v : PyVal) :
  fset a self v = setitem self (accessor_key a) v.
Proof. by destruct a. Qed.

Lemma getitem_setitem (self : Query) (key : string) (v : PyVal) :
  getitem_or_None (setitem self key v) key = v.
Proof.
  unfold getitem_or_None, setitem. cbn [items]. by rewrite lookup_insert_eq.
Qed.

(** A new query holds the keys of [params], and [q] when the text query
    is truthy. *)
Lemma Query_init_absent (key : string) (feed : option string) (tq : PyVal)
    (params : option (gmap string PyVal)) (cats : option (list string)) :
  (key = "q" -> PyVal_truthy tq = false) ->
  (forall p, params = Some p -> p !! key = None) ->
  items (Query_init feed tq params cats) !! key = None.
Proof.
  intros Hq Hp. unfold Query_init.
  assert (Hbase :
    items (if PyVal_truthy tq
           then _SetTextQuery
                  {| feed := feed; categories := []; items := ∅ |} tq
           else {| feed := feed; categories := []; items := ∅ |}) !! key
    = None).
  { destruct (PyVal_truthy tq) eqn:Htq; [|done].
    unfold _SetTextQuery, setitem. cbn [items].
    rewrite lookup_insert_ne; [done|]. intros <-. by specialize (Hq eq_refl). }
  destruct params as [p|]; destruct cats as [cs|];
    unfold append_categories, update_items; cbn [items]; try done;
    apply lookup_union_None; by split; [apply Hp|].
Qed.

Lemma query_step_absent (key : string) (self : Query) (o : QueryOp) :
  assigned_key o <> Some key ->
  items self !! key = None ->
  items (query_step self o) !! key = None.
Proof.
  intros Ho Hself. destruct o as [a v|k v|k|c]; cbn [query_step assigned_key] in *.
  - rewrite fset_key. unfold setitem. cbn [items].
    rewrite lookup_insert_ne; [done | congruence].
  - unfold setitem. cbn [items]. rewrite lookup_insert_ne; [done | congruence].
  - cbn [items]. rewrite lookup_delete. by case_decide.
  - done.
Qed.

Lemma query_steps_absent (key : string) (ops : list QueryOp) (self : Query) :
  never_set key ops = true ->
  items self !! key = None ->
  items (foldl query_step self ops) !! key = None.
Proof.
  revert self; induction ops as [|o ops IH]; intros self Hops Hself; [done|].
  cbn [never_set forallb] in Hops. apply andb_prop in Hops as [Ho Hops].
  cbn [foldl]. apply IH; [done|].
  apply query_step_absent; [|done]. by apply bool_decide_eq_true in Ho.
Qed.

(** C9: for every value, reading [max_results] after it was assigned
    gives the value back, and so for each named accessor; an accessor
    whose key is not in the query reads as [None], and that is so for a
    query built without the key on which the key was never assigned
    since. *)
Theorem Query_accessors :
  (forall (self : Query) (v : PyVal),
     _GetMaxResults (_SetMaxResults self v) = v)
  /\ (forall (a : Accessor) (self : Query) (v : PyVal),
        fget a (fset a self v) = v)
  /\ (forall (a : Accessor) (self : Query),
        items self !! accessor_key a = None -> fget a self = PyNone)
  /\ (forall (a : Accessor) (feed : option string) (tq : PyVal)
        (params : option (gmap string PyVal)) (cats : option (list string))
        (ops : list QueryOp),
        (a = prop_text_query -> PyVal_truthy tq = false) ->
        (forall p, params = Some p -> p !! accessor_key a = None) ->
        never_set (accessor_key a) ops = true ->
        fget a (foldl query_step (Query_init feed tq params cats) ops)
        = PyNone).
Proof.
  assert (Habsent : forall a self,
            items self !! accessor_key a = None -> fget a self = PyNone).
  { intros a self H. rewrite fget_key. unfold getitem_or_None. by rewrite H. }
  repeat split.
  - intros self v. apply getitem_setitem.
  - intros a self v. rewrite fget_key, fset_key. apply getitem_setitem.
  - exact Habsent.
  - intros a feed tq params cats ops Hq Hp Hops. apply Habsent.
    apply query_steps_absent; [done|]. apply Query_init_absent; [|done].
    intros Hkey. apply Hq. by destruct a.
Qed.

Lemma Query_accessors_witness :
  let query :=
    foldl query_step
      (Query_init (Some "/feeds/x") PyNone (Some {["alt" := PyStr "atom"]})
         (Some ["A"]))
      [Q_set prop_max_results (PyInt 5); Q_append_category "B|C"] in
  _GetMaxResults (_SetMaxResults query (PyInt 5)) = PyInt 5
  /\ _GetAuthor query = PyNone.
Proof.
  destruct Query_accessors as (Hround & _ & _ & Hnever).
  split; [apply Hround|].
  apply (Hnever prop_author (Some "/feeds/x") PyNone
           (Some {["alt" := PyStr "atom"]}) (Some ["A"])
           [Q_set prop_max_results (PyInt 5); Q_append_category "B|C"]).
  - discriminate.
  - intros p [= <-]. reflexivity.
  - reflexivity.
Defined.

(** * Further properties of the code *)

(** ** CRUD operations: calls, frame and final responses *)

Section CrudMore.
Context {X : Externals}.





Lemma execute_rec_calls (fuel : nat) (op : Crud) self uri extra_headers
    rr env :
  exists calls,
    trace (env_after (execute_rec fuel op self uri extra_headers rr env))
    = trace env ++ calls
    /\ (1 <= length calls <= 1 + Z.to_nat rr)%nat.
Proof.
  revert self uri extra_headers rr env.
  induction fuel as [|fuel IH]; intros self uri eh rr env;
    rewrite execute_rec_unfold; cbv zeta;
    pose proof (request_trace (first_call op self uri eh) env) as Ht;
    destruct (request _ env) as [r env1]; cbn [fst snd] in *;
    destruct (status r =? success_status op);
    try (eexists [_]; split; [exact Ht | cbn; lia]);
    destruct (status r =? 302);
    try (eexists [_]; split; [exact Ht | cbn; lia]);
    destruct (Z.gtb_spec rr 0);
    try (eexists [_]; split; [exact Ht | cbn; lia]);
    destruct (getheader r "Location") as [location|];
    try (eexists [_]; split; [exact Ht | cbn; lia]).
  destruct (IH (learn_gsessionid self location) location
              (Some (authorize self (default ∅ eh))) (rr - 1) env1)
    as (calls & -> & Hlen).
  exists (first_call op self uri eh :: calls). split.
  - by rewrite Ht, <- app_assoc.
  - cbn [length]. lia.
Qed.

(** X1: a CRUD method calls the transport at least once and at most once
    more than its redirect budget (once when the budget is zero or less),
    and it leaves the calls made before it in place. *)
Theorem crud_call_bound (op : Crud) self uri extra_headers rr env :
  let after := env_after (crud op self uri extra_headers rr env) in
  trace after = trace env ++ calls_made env after
  /\ (1 <= length (calls_made env after) <= 1 + Z.to_nat rr)%nat.
Proof.
  cbv zeta. rewrite crud_execute.
  destruct (execute_rec_calls (Z.to_nat rr) op self uri extra_headers rr env)
    as (calls & Htrace & Hlen).
  unfold calls_made. rewrite Htrace.
  by rewrite skipn_app, skipn_all, Nat.sub_diag.
Qed.



End CrudMore.


(** ** Typed getters, headers and the session parameter *)

Section Getters.
Context {X : Externals}.

Lemma Get_200 self uri extra_headers rr env :
  let r := (request (first_call Crud_Get self uri extra_headers) env).1 in
  status r = 200 ->
  outcome (Get self uri extra_headers rr env)
  = Return (parse_result (read r)).
Proof.
  intros r H200.
  pose proof (crud_execute Crud_Get self uri extra_headers rr env) as Hex.
  cbn [crud] in Hex. rewrite Hex, execute_rec_unfold. fold r.
  by rewrite H200.
Qed.

(** X4: [GetEntry] returns nothing but an entry and [GetFeed] nothing but
    a feed.  The feed parser is tried first, so a 200 body that it accepts
    makes [GetEntry] raise [UnexpectedReturnType] even when the body would
    parse as an entry; and a 200 body that it rejects makes [GetFeed]
    raise [UnexpectedReturnType]. *)
Theorem typed_getters self uri extra_headers env :
  let r := (request (first_call Crud_Get self uri extra_headers) env).1 in
  (forall v, outcome (GetEntry self uri extra_headers env) = Return v ->
     exists e, v = VEntry e)
  /\ (forall v, outcome (GetFeed self uri extra_headers env) = Return v ->
        exists f, v = VFeed f)
  /\ (status r = 200 -> is_Some (GDataFeedFromString (read r)) ->
        outcome (GetEntry self uri extra_headers env)
        = Raise (UnexpectedReturnType "Server did not send an entry"))
  /\ (status r = 200 -> GDataFeedFromString (read r) = None ->
        outcome (GetFeed self uri extra_headers env)
        = Raise (UnexpectedReturnType "Server did not send a feed")).
Proof.
  intros r. repeat split.
  - unfold GetEntry, outcome.
    destruct (Get self uri extra_headers 4 env) as [[res self'] env'].
    intros v. destruct res as [[]| |]; cbn [fst]; intros [= <-] || intros [=].
    by eexists.
  - unfold GetFeed, outcome.
    destruct (Get self uri extra_headers 4 env) as [[res self'] env'].
    intros v. destruct res as [[]| |]; cbn [fst]; intros [= <-] || intros [=].
    by eexists.
  - intros H200 [f Hf].
    pose proof (Get_200 self uri extra_headers 4 env H200) as HG.
    fold r in HG. unfold parse_result in HG. rewrite Hf in HG.
    unfold GetEntry, outcome in *.
    destruct (Get self uri extra_headers 4 env) as [[res self'] env'].
    cbn [fst] in HG. by subst res.
  - intros H200 Hf.
    pose proof (Get_200 self uri extra_headers 4 env H200) as HG.
    fold r in HG. unfold parse_result in HG. rewrite Hf in HG.
    unfold GetFeed, outcome in *.
    destruct (Get self uri extra_headers 4 env) as [[res self'] env'].
    cbn [fst] in HG. subst res. by destruct (EntryFromString (read r)).
Qed.

Lemma crud_sent_headers (op : Crud) self uri extra_headers rr env :
  sent_headers env (env_after (crud op self uri extra_headers rr env))
  = Some (authorize self (default ∅ extra_headers)).
Proof.
  rewrite crud_execute. unfold sent_headers.
  destruct (execute_rec_trace (Z.to_nat rr) op self uri extra_headers rr env)
    as [rest ->].
  rewrite list_lookup_middle by done. by destruct op.
Qed.

(** X5: the headers of a CRUD call.  With a token that is not empty the
    call carries [Authorization] with the type, an equals sign and the
    token, in place of any [Authorization] header of the caller, and the
    other headers of the caller as they are; with no token, or the empty
    token, the headers are exactly the caller's. *)
Theorem crud_authorization (op : Crud) self uri extra_headers rr env :
  let sent :=
    sent_headers env (env_after (crud op self uri extra_headers rr env)) in
  (Py.truthy (auth_token self) = true ->
     exists h, sent = Some h
       /\ h !! "Authorization"
          = Some (Py.str (auth_type self) +:+ "=" +:+ Py.str (auth_token self))
       /\ forall k, k <> "Authorization" ->
            h !! k = default ∅ extra_headers !! k)
  /\ (Py.truthy (auth_token self) = false ->
        sent = Some (default ∅ extra_headers)).
Proof.
  cbv zeta. rewrite crud_sent_headers. unfold authorize. split; intros ->.
  - eexists. split; [done|]. split; [by rewrite lookup_insert_eq|].
    intros k Hk. by rewrite lookup_insert_ne.
  - done.
Qed.

End Getters.

Lemma typed_getters_witness :
  let env := Stub.script [Stub.response 200 "<feed><entry/></feed>" None] in
  outcome (GetEntry (X := Stub.externals) Stub.fresh "/feeds/items" None env)
  = Raise (UnexpectedReturnType "Server did not send an entry").
Proof.
  intros env.
  destruct (typed_getters (X := Stub.externals) Stub.fresh "/feeds/items"
              None env) as (_ & _ & Hentry & _).
  apply Hentry; [reflexivity | by eexists].
Defined.

Lemma crud_authorization_witness :
  let self := _SetAuthSubToken Stub.fresh (Some "CMDLu") in
  let env := Stub.script [Stub.response 200 "" None] in
  exists h,
    sent_headers env
      (env_after
         (crud (X := Stub.externals) (Crud_Delete None true) self
            "/feeds/items/1" (Some {["Authorization" := "mine"]}) 4 env))
    = Some h
    /\ h !! "Authorization" = Some "AuthSub token=CMDLu".
Proof.
  intros self env.
  destruct (crud_authorization (X := Stub.externals) (Crud_Delete None true)
              self "/feeds/items/1" (Some {["Authorization" := "mine"]}) 4
              env) as [Hsome _].
  destruct (Hsome eq_refl) as (h & Hsent & Hauth & _).
  exists h. by split.
Defined.

(** ** The session id *)


Lemma take_word_is_word (s : string) :
  string_forall Py.is_word (Py.take_word s) = true.
Proof.
  induction s as [|c s IH]; [done|]. cbn [Py.take_word].
  destruct (Py.is_word c) eqn:Hc; [|done].
  cbn [string_forall]. by rewrite Hc.
Qed.

Lemma drop_prefix (p t : string) :
  Py.drop (String.length p) (p +:+ t) = t.
Proof.
  induction p as [|c p IH]; [by destruct t|].
  rewrite append_cons. exact IH.
Qed.

(** A match of the pattern starts where [gsessionid=] follows a question
    mark or an ampersand. *)
Lemma search_gsessionid_found (location sid : string) :
  search_gsessionid location = Some sid ->
  string_forall Py.is_word sid = true
  /\ exists pre post, location = pre +:+ "gsessionid=" +:+ post.
Proof.
  induction location as [|c rest IH]; [done|]. cbn [search_gsessionid].
  destruct ((Ascii.eqb c "?" || Ascii.eqb c "&")
            && Py.startswith "gsessionid=" rest) eqn:Hm.
  - intros [= <-]. split; [apply take_word_is_word|].
    apply andb_prop in Hm as [_ Hp].
    destruct (prefix_split _ _ Hp) as [t ->].
    by exists (String c ""), t.
  - intros H. destruct (IH H) as [Hw (pre & post & ->)].
    split; [done|]. by exists (String c pre), post.
Qed.





Section Session.
Context {X : Externals}.





End Session.


Section SessionInvariant.
Context {X : Externals}.

Lemma fold_200_gsessionid (lines : list string) (self : GDataService) :
  gsessionid (foldl login_200_line self lines) = gsessionid self.
Proof.
  revert self; induction lines as [|l lines IH]; intros self; [done|].
  cbn [foldl]. rewrite IH. unfold login_200_line.
  by destruct (Py.startswith "Auth=" l).
Qed.

Lemma fold_upgrade_gsessionid (lines : list string) (self : GDataService) :
  gsessionid (foldl upgrade_line self lines) = gsessionid self.
Proof.
  revert self; induction lines as [|l lines IH]; intros self; [done|].
  cbn [foldl]. rewrite IH. unfold upgrade_line.
  by destruct (Py.startswith "Token=" l).
Qed.

Lemma ProgrammaticLogin_gsessionid self ct cr env :
  gsessionid (service_after (ProgrammaticLogin self ct cr env))
  = gsessionid self.
Proof.
  unfold service_after, ProgrammaticLogin.
  destruct (request _ env) as [r env1].
  destruct (status r =? 200); [apply fold_200_gsessionid|].
  destruct (status r =? 403); [|done].
  pose proof (fold_403_auth (Py.splitlines (read r)) self None) as Hauth.
  cbv zeta in Hauth.
  destruct (foldl login_403_line (self, None) _) as [self' el].
  cbn [fst] in Hauth. destruct Hauth as (_ & _ & Hg).
  destruct el as [e|]; [|done].
  destruct (String.eqb e "Error=CaptchaRequired"); [done|].
  by destruct (String.eqb e "Error=BadAuthentication").
Qed.

Lemma UpgradeToSessionToken_gsessionid self env :
  gsessionid (service_after (UpgradeToSessionToken self env))
  = gsessionid self.
Proof.
  unfold service_after, UpgradeToSessionToken.
  destruct (decide (auth_type self ≠ Some AUTHSUB_AUTH_LABEL)); [done|].
  destruct (request _ env) as [r env1].
  destruct (status r =? 200); [apply fold_upgrade_gsessionid | done].
Qed.

Lemma RevokeAuthSubToken_gsessionid self env :
  gsessionid (service_after (RevokeAuthSubToken self env)) = gsessionid self.
Proof.
  unfold service_after, RevokeAuthSubToken.
  destruct (decide (auth_type self ≠ Some AUTHSUB_AUTH_LABEL)); [done|].
  destruct (request _ env) as [r env1]. by destruct (status r =? 200).
Qed.

Lemma learn_gsessionid_cases self location :
  gsessionid (learn_gsessionid self location) = gsessionid self
  \/ exists sid, gsessionid (learn_gsessionid self location) = Some sid
                 /\ string_forall Py.is_word sid = true.
Proof.
  unfold learn_gsessionid.
  destruct (search_gsessionid location) as [sid|] eqn:Hs; [|by left].
  right. exists sid. split; [done|].
  by apply search_gsessionid_found in Hs as [? _].
Qed.

Lemma execute_rec_gsessionid (fuel : nat) (op : Crud) self uri
    extra_headers rr env :
  let self' :=
    service_after (execute_rec fuel op self uri extra_headers rr env) in
  gsessionid self' = gsessionid self
  \/ exists sid, gsessionid self' = Some sid
                 /\ string_forall Py.is_word sid = true.
Proof.
  revert self uri extra_headers rr env.
  induction fuel as [|fuel IH]; intros self uri eh rr env;
    rewrite execute_rec_unfold; cbv zeta;
    destruct (request _ env) as [r env1]; cbn [fst snd];
    destruct (status r =? success_status op); try (by left);
    destruct (status r =? 302); try (by left);
    destruct (rr >? 0); try (by left);
    destruct (getheader r "Location") as [location|]; try (by left).
  - apply learn_gsessionid_cases.
  - cbv zeta in IH.
    destruct (IH (learn_gsessionid self location) location
                (Some (authorize self (default ∅ eh))) (rr - 1) env1)
      as [->|?]; [apply learn_gsessionid_cases | by right].
Qed.

Lemma step_gsessionid (st : GDataService * Env) (o : PublicOp) :
  gsessionid (step st o).1 = gsessionid st.1
  \/ exists sid, gsessionid (step st o).1 = Some sid
                 /\ string_forall Py.is_word sid = true.
Proof.
  destruct st as [self env]. cbn [fst].
  destruct o as [v|ct cr| | |op uri eh rr|uri eh|uri eh]; cbn [step].
  - by left.
  - left. pose proof (ProgrammaticLogin_gsessionid self ct cr env) as H.
    by destruct (ProgrammaticLogin _ _ _ _) as [[? ?] ?].
  - left. pose proof (UpgradeToSessionToken_gsessionid self env) as H.
    by destruct (UpgradeToSessionToken _ _) as [[? ?] ?].
  - left. pose proof (RevokeAuthSubToken_gsessionid self env) as H.
    by destruct (RevokeAuthSubToken _ _) as [[? ?] ?].
  - pose proof (execute_rec_gsessionid (Z.to_nat rr) op self uri eh rr env)
      as H.
    rewrite <- crud_execute in H.
    by destruct (crud _ _ _ _ _ _) as [[? ?] ?].
  - pose proof (execute_rec_gsessionid (Z.to_nat 4) Crud_Get self uri eh 4
                  env) as H.
    rewrite <- crud_execute in H. cbn [crud] in H. unfold GetEntry.
    destruct (Get self uri eh 4 env) as [[res self'] env'].
    by destruct res as [[]| |].
  - pose proof (execute_rec_gsessionid (Z.to_nat 4) Crud_Get self uri eh 4
                  env) as H.
    rewrite <- crud_execute in H. cbn [crud] in H. unfold GetFeed.
    destruct (Get self uri eh 4 env) as [[res self'] env'].
    by destruct res as [[]| |].
Qed.

Lemma run_gsessionid_word (ops : list PublicOp) (st : GDataService * Env) :
  (forall sid, gsessionid st.1 = Some sid ->
     string_forall Py.is_word sid = true) ->
  forall sid, gsessionid (run ops st).1 = Some sid ->
    string_forall Py.is_word sid = true.
Proof.
  revert st; induction ops as [|o ops IH]; intros st Hst; [done|].
  apply IH. intros sid Hsid.
  destruct (step_gsessionid st o) as [Heq|(sid' & Heq & Hw)].
  - apply Hst. by rewrite <- Heq.
  - rewrite Heq in Hsid. by injection Hsid as <-.
Qed.

(** X9: in every state reached from construction by public operations,
    the session id, when there is one, is a string of letters, digits and
    underscores. *)
Theorem gsessionid_is_a_word (ops : list PublicOp)
    (email password account_type service source server : option string)
    (additional_headers : option Headers) (env : Env) (sid : string) :
  gsessionid
    (run ops (GDataService_init email password account_type service source
                server additional_headers, env)).1 = Some sid ->
  string_forall Py.is_word sid = true.
Proof. by apply run_gsessionid_word. Qed.

(** X10: no public operation forgets the session id: once a service
    object holds one, it holds one after every further sequence of
    operations (a later redirect may replace it). *)
Theorem gsessionid_is_kept (ops : list PublicOp) (st : GDataService * Env) :
  is_set (gsessionid st.1) = true ->
  is_set (gsessionid (run ops st).1) = true.
Proof.
  revert st; induction ops as [|o ops IH]; intros st Hst; [done|].
  apply IH.
  destruct (step_gsessionid st o) as [->|(sid' & -> & _)]; done.
Qed.

End SessionInvariant.

Lemma gsessionid_is_a_word_witness :
  let ops :=
    [Op_crud (X := Stub.externals) Crud_Get "/feeds/items" None 4] in
  let env :=
    Stub.script [Stub.response 302 "" (Some "/next?gsessionid=a_1-b&x=2");
                 Stub.response 200 "<feed/>" None] in
  gsessionid (run ops (Stub.fresh, env)).1 = Some "a_1"
  /\ string_forall Py.is_word "a_1" = true.
Proof.
  intros ops env. split; [reflexivity|].
  apply (gsessionid_is_a_word (X := Stub.externals) ops
           (Some "user@example.com") (Some "secret") (Some "GOOGLE")
           (Some "cl") (Some "app") (Some "www.google.com") None env "a_1"
           eq_refl).
Defined.

Lemma gsessionid_is_kept_witness :
  let self := set_gsessionid (Some "S1") Stub.fresh in
  let ops :=
    [Op_ProgrammaticLogin (X := Stub.externals) None None;
     Op_RevokeAuthSubToken;
     Op_crud Crud_Get "/feeds/items" None 4] in
  let env :=
    Stub.script [Stub.response 403 "Error=BadAuthentication" None;
                 Stub.response 302 "" (Some "/next");
                 Stub.response 404 "" None] in
  is_set (gsessionid (run ops (self, env)).1) = true.
Proof.
  intros self ops env.
  apply (gsessionid_is_kept (X := Stub.externals) ops (self, env) eq_refl).
Defined.

(** ** Programmatic login: token, errors and the request *)

Lemma lstrip_head (chars s : string) (c : ascii) (t : string) :
  Py.lstrip chars s = String c t -> Py.char_in c chars = false.
Proof.
  induction s as [|d s IH]; [done|]. cbn [Py.lstrip].
  destruct (Py.char_in d chars) eqn:Hd; [exact IH|].
  by intros [= <- _].
Qed.

Lemma existsb_last_filter (p : string -> bool) (lines : list string) :
  existsb p lines = true -> is_Some (last (List.filter p lines)).
Proof.
  induction lines as [|l lines IH]; [done|]. cbn [existsb List.filter].
  destruct (p l); cbn [orb].
  - intros _. destruct (List.filter p lines) as [|e es] eqn:Hf; [by eexists|].
    rewrite last_cons_cons. destruct (last (e :: es)) eqn:Hl; [by eexists|].
    by apply last_None in Hl.
  - exact IH.
Qed.

Section LoginMore.
Context {X : Externals}.

Lemma ProgrammaticLogin_200 self ct cr env :
  status (login_response self ct cr env) = 200 ->
  ProgrammaticLogin self ct cr env
  = (Return VNone,
     foldl login_200_line self
       (Py.splitlines (read (login_response self ct cr env))),
     (request (login_request self ct cr) env).2).
Proof.
  unfold ProgrammaticLogin, login_response.
  destruct (request _ env) as [r env1]. cbn [fst snd]. by intros ->.
Qed.

(** X11: a 200 response whose last line starting with [Auth=] carries a
    token that begins with none of the characters A, u, t, h and = makes
    the call return with exactly that token stored, the type set to the
    programmatic label and the captcha fields absent. *)
Theorem ProgrammaticLogin_stores_token self ct cr env (c : ascii)
    (t : string) :
  let r := login_response self ct cr env in
  let result := ProgrammaticLogin self ct cr env in
  status r = 200 ->
  last (List.filter (Py.startswith "Auth=") (Py.splitlines (read r)))
  = Some ("Auth=" +:+ String c t) ->
  Py.char_in c "Auth=" = false ->
  outcome result = Return VNone
  /\ auth_token (service_after result) = Some (String c t)
  /\ auth_type (service_after result) = Some PROGRAMMATIC_AUTH_LABEL
  /\ captcha_token (service_after result) = None
  /\ captcha_url (service_after result) = None.
Proof.
  intros r result H200 Hlast Hc. subst result.
  rewrite (ProgrammaticLogin_200 self ct cr env H200). fold r.
  unfold outcome, service_after. cbn [fst snd].
  destruct (fold_200_token (Py.splitlines (read r)) self _ Hlast)
    as [Htok Hty].
  rewrite Htok, Hty, (lstrip_Auth_exact c t Hc).
  repeat split. all: apply fold_200_clears.
  all: destruct (existsb (Py.startswith "Auth=") (Py.splitlines (read r)))
         eqn:He; [done|].
  all: exfalso; clear -Hlast He.
  all: induction (Py.splitlines (read r)) as [|l ls IH]; [done|].
  all: cbn [existsb List.filter] in *.
  all: destruct (Py.startswith "Auth=" l); [done | by apply IH].
Qed.

(** X12: whatever the token sent, the token stored from a 200 response
    with a line starting with [Auth=] never begins with one of the
    characters A, u, t, h and =. *)
Theorem ProgrammaticLogin_token_head self ct cr env :
  let r := login_response self ct cr env in
  status r = 200 -> has_auth_line (read r) = true ->
  exists token,
    auth_token (service_after (ProgrammaticLogin self ct cr env))
    = Some token
    /\ forall c t, token = String c t -> Py.char_in c "Auth=" = false.
Proof.
  intros r H200 Hline.
  rewrite (ProgrammaticLogin_200 self ct cr env H200). fold r.
  unfold service_after. cbn [fst snd].
  destruct (existsb_last_filter _ _ Hline) as [l Hl].
  destruct (fold_200_token (Py.splitlines (read r)) self l Hl) as [-> _].
  eexists. split; [done|]. intros c t Heq. by eapply lstrip_head.
Qed.

Lemma ProgrammaticLogin_403 self ct cr env :
  status (login_response self ct cr env) = 403 ->
  let lines := Py.splitlines (read (login_response self ct cr env)) in
  let self' := (foldl login_403_line (self, None) lines).1 in
  let env1 := (request (login_request self ct cr) env).2 in
  ProgrammaticLogin self ct cr env =
  match last_error_line (read (login_response self ct cr env)) with
  | None => (Raise (UnboundLocalError "error_line"), self', env1)
  | Some e =>
      if String.eqb e "Error=CaptchaRequired" then
        (Raise (CaptchaRequired "Captcha Required"), self', env1)
      else if String.eqb e "Error=BadAuthentication" then
        (Raise (BadAuthentication "Incorrect username or password"),
         set_captcha_url None (set_captcha_token None self'), env1)
      else
        (Raise (Error "Server responded with a 403 code"),
         set_captcha_url None (set_captcha_token None self'), env1)
  end.
Proof.
  unfold ProgrammaticLogin, login_response, last_error_line.
  destruct (request _ env) as [r env1]. cbn [fst snd]. intros ->.
  cbn [Z.eqb Pos.eqb]. cbv zeta.
  pose proof (fold_403_error_line (Py.splitlines (read r)) self None) as He.
  destruct (foldl login_403_line (self, None) _) as [self' el].
  cbn [fst snd] in *. subst el.
  by destruct (last (List.filter _ _)).
Qed.

(** X13: a 403 response never lets the call return: it ends in an
    exception; and it leaves the token, its type and the session id as
    they were, so a token obtained earlier survives a failed login. *)
Theorem ProgrammaticLogin_403_keeps_token self ct cr env :
  let result := ProgrammaticLogin self ct cr env in
  status (login_response self ct cr env) = 403 ->
  (exists e, outcome result = Raise e)
  /\ auth_token (service_after result) = auth_token self
  /\ auth_type (service_after result) = auth_type self
  /\ gsessionid (service_after result) = gsessionid self.
Proof.
  intros result H403. subst result.
  rewrite (ProgrammaticLogin_403 self ct cr env H403). cbv zeta.
  destruct (fold_403_auth
              (Py.splitlines (read (login_response self ct cr env))) self None)
    as (Ht & Hy & Hg).
  destruct (last_error_line _) as [e|]; [|by split; [eexists|]].
  destruct (String.eqb e "Error=CaptchaRequired"); [by split; [eexists|]|].
  destruct (String.eqb e "Error=BadAuthentication"); by split; [eexists|].
Qed.

(** X14: the exception of a 403 response is decided by the last line that
    starts with [Error=], compared as a whole line: [CaptchaRequired] for
    [Error=CaptchaRequired], [BadAuthentication] for
    [Error=BadAuthentication], and [Error] for any other such line. *)
Theorem ProgrammaticLogin_403_dispatch self ct cr env (e : string) :
  let r := login_response self ct cr env in
  let result := ProgrammaticLogin self ct cr env in
  status r = 403 -> last_error_line (read r) = Some e ->
  outcome result =
  if decide (e = "Error=CaptchaRequired") then
    Raise (CaptchaRequired "Captcha Required")
  else if decide (e = "Error=BadAuthentication") then
    Raise (BadAuthentication "Incorrect username or password")
  else Raise (Error "Server responded with a 403 code").
Proof.
  intros r result H403 He. subst result.
  rewrite (ProgrammaticLogin_403 self ct cr env H403). cbv zeta.
  fold r. rewrite He.
  destruct (String.eqb_spec e "Error=CaptchaRequired");
    destruct (decide (e = "Error=CaptchaRequired")); try done.
  destruct (String.eqb_spec e "Error=BadAuthentication");
    by destruct (decide (e = "Error=BadAuthentication")).
Qed.

Lemma fold_403_no_captcha_lines (lines : list string) (self : GDataService)
    (el : option string) :
  Forall (fun l => Py.startswith "CaptchaToken=" l = false
                   /\ Py.startswith "CaptchaUrl=" l = false) lines ->
  (foldl login_403_line (self, el) lines).1 = self.
Proof.
  intros H. revert self el.
  induction H as [|l ls [Ht Hu] _ IH]; intros self el; [done|].
  cbn [foldl]. unfold login_403_line at 2. rewrite Ht, Hu.
  destruct (Py.startswith "Error=" l); apply IH.
Qed.

(** X15: a captcha challenge whose body has no line starting with
    [CaptchaToken=] and none starting with [CaptchaUrl=] raises
    [CaptchaRequired] and leaves the service object as it was: the
    captcha token and url read afterwards are those of before the call,
    absent on a new object. *)
Theorem ProgrammaticLogin_challenge_without_captcha self ct cr env :
  let r := login_response self ct cr env in
  let result := ProgrammaticLogin self ct cr env in
  status r = 403 ->
  last_error_line (read r) = Some "Error=CaptchaRequired" ->
  Forall (fun l => Py.startswith "CaptchaToken=" l = false
                   /\ Py.startswith "CaptchaUrl=" l = false)
    (Py.splitlines (read r)) ->
  outcome result = Raise (CaptchaRequired "Captcha Required")
  /\ service_after result = self.
Proof.
  intros r result H403 He Hlines. subst result.
  rewrite (ProgrammaticLogin_403 self ct cr env H403). cbv zeta.
  fold r. rewrite He. cbn. split; [done|].
  unfold service_after. cbn [fst snd].
  by apply fold_403_no_captcha_lines.
Qed.

(** X16: every login attempt makes exactly one call, whatever comes
    back: a POST of a form to [/accounts/ClientLogin] on
    [www.google.com] whose [Content-Length] is the length of the form.
    The form has the five account fields, and the two captcha fields only
    when both the captcha token and the captcha response are given and
    not empty. *)
Theorem ProgrammaticLogin_request self ct cr env :
  let form :=
    urlencode
      ([("Email", email self); ("Passwd", password self);
        ("accountType", account_type self); ("service", service self);
        ("source", source self)]
       ++ (if Py.truthy ct && Py.truthy cr
           then [("logintoken", ct); ("logincaptcha", cr)] else [])) in
  trace (env_after (ProgrammaticLogin self ct cr env))
  = trace env
    ++ [HTTPSConnection_request "www.google.com" "POST"
          "/accounts/ClientLogin"
          [("Content-type", "application/x-www-form-urlencoded");
           ("Content-Length", Py.str_of_nat (String.length form))]
          (Some form)].
Proof.
  cbv zeta.
  assert (Henv : env_after (ProgrammaticLogin self ct cr env)
                 = (request (login_request self ct cr) env).2).
  { unfold env_after, ProgrammaticLogin.
    destruct (request _ env) as [r env1]. cbn [snd].
    destruct (status r =? 200); [done|].
    destruct (status r =? 403); [|done].
    destruct (foldl login_403_line (self, None) _) as [self' el].
    destruct el as [e|]; [|done].
    destruct (String.eqb e "Error=CaptchaRequired"); [done|].
    by destruct (String.eqb e "Error=BadAuthentication"). }
  rewrite Henv, request_trace. unfold login_request.
  by destruct (Py.truthy ct && Py.truthy cr).
Qed.

End LoginMore.

Lemma ProgrammaticLogin_stores_token_witness :
  let result :=
    ProgrammaticLogin (X := Stub.externals) Stub.challenged None None
      (Stub.script
         [Stub.response 200
            (Stub.lines ["SID=s1"; "LSID=s2"; "Auth=DQAAAGgA"]) None]) in
  outcome result = Return VNone
  /\ auth_token (service_after result) = Some "DQAAAGgA"
  /\ auth_type (service_after result) = Some PROGRAMMATIC_AUTH_LABEL
  /\ captcha_token (service_after result) = None
  /\ captcha_url (service_after result) = None.
Proof.
  apply (ProgrammaticLogin_stores_token (X := Stub.externals)
           Stub.challenged None None
           (Stub.script
              [Stub.response 200
                 (Stub.lines ["SID=s1"; "LSID=s2"; "Auth=DQAAAGgA"]) None])
           "D"%char "QAAAGgA" eq_refl eq_refl eq_refl).
Defined.

Lemma ProgrammaticLogin_token_head_witness :
  exists token,
    auth_token
      (service_after
         (ProgrammaticLogin (X := Stub.externals) Stub.fresh None None
            (Stub.script [Stub.response 200 "Auth=utah=x" None])))
    = Some token
    /\ forall c t, token = String c t -> Py.char_in c "Auth=" = false.
Proof.
  apply (ProgrammaticLogin_token_head (X := Stub.externals) Stub.fresh None
           None (Stub.script [Stub.response 200 "Auth=utah=x" None])
           eq_refl eq_refl).
Defined.

Lemma ProgrammaticLogin_403_keeps_token_witness :
  let self :=
    set_auth_type (Some PROGRAMMATIC_AUTH_LABEL)
      (set_auth_token (Some "DQAAAGgA") Stub.fresh) in
  let result :=
    ProgrammaticLogin (X := Stub.externals) self None None
      (Stub.script [Stub.response 403 "Error=BadAuthentication" None]) in
  (exists e, outcome result = Raise e)
  /\ auth_token (service_after result) = Some "DQAAAGgA"
  /\ auth_type (service_after result) = Some PROGRAMMATIC_AUTH_LABEL
  /\ gsessionid (service_after result) = None.
Proof.
  intros self result.
  apply (ProgrammaticLogin_403_keeps_token (X := Stub.externals) self None
           None
           (Stub.script [Stub.response 403 "Error=BadAuthentication" None])
           eq_refl).
Defined.

Lemma ProgrammaticLogin_403_dispatch_witness :
  outcome
    (ProgrammaticLogin (X := Stub.externals) Stub.fresh None None
       (Stub.script
          [Stub.response 403
             (Stub.lines ["Error=CaptchaRequired"; "Error=CaptchaRequired "])
             None]))
  = Raise (Error "Server responded with a 403 code").
Proof.
  apply (ProgrammaticLogin_403_dispatch (X := Stub.externals) Stub.fresh None
           None
           (Stub.script
              [Stub.response 403
                 (Stub.lines
                    ["Error=CaptchaRequired"; "Error=CaptchaRequired "])
                 None])
           "Error=CaptchaRequired " eq_refl eq_refl).
Defined.

Lemma ProgrammaticLogin_challenge_without_captcha_witness :
  let result :=
    ProgrammaticLogin (X := Stub.externals) Stub.challenged None None
      (Stub.script [Stub.response 403 "Error=CaptchaRequired" None]) in
  outcome result = Raise (CaptchaRequired "Captcha Required")
  /\ service_after result = Stub.challenged.
Proof.
  apply (ProgrammaticLogin_challenge_without_captcha (X := Stub.externals)
           Stub.challenged None None
           (Stub.script [Stub.response 403 "Error=CaptchaRequired" None])
           eq_refl eq_refl).
  repeat constructor.
Defined.

(** ** AuthSub tokens: upgrade and revocation *)

Section AuthSubMore.
Context {X : Externals}.

Lemma fold_upgrade_no_token (lines : list string) (self : GDataService) :
  List.filter (Py.startswith "Token=") lines = [] ->
  foldl upgrade_line self lines = self.
Proof.
  revert self; induction lines as [|l lines IH]; intros self; [done|].
  cbn [List.filter foldl]. unfold upgrade_line at 2.
  destruct (Py.startswith "Token=" l); [done | apply IH].
Qed.

Lemma fold_upgrade_token (lines : list string) (self : GDataService)
    (l : string) :
  last (List.filter (Py.startswith "Token=") lines) = Some l ->
  foldl upgrade_line self lines
  = set_auth_token (Some (Py.lstrip "Token=" l)) self.
Proof.
  revert self; induction lines as [|x lines IH]; intros self; [done|].
  cbn [List.filter foldl]. unfold upgrade_line at 2.
  destruct (Py.startswith "Token=" x) eqn:Hx; [|apply IH].
  destruct (List.filter _ lines) as [|e es] eqn:Hf.
  - intros [= ->]. by rewrite fold_upgrade_no_token.
  - rewrite last_cons_cons. intros Hl. by rewrite (IH _ Hl).
Qed.

(** X17: with an AuthSub token, [UpgradeToSessionToken] makes one GET on
    [/accounts/AuthSubSessionToken] with the token in the
    [Authorization] header and always returns.  A status other than 200,
    and a 200 body without a line starting with [Token=], leave the
    service object as it was, with no error; a 200 body with such lines
    replaces the token by the last of them with the characters T, o, k,
    e, n and = dropped from its left end, and changes nothing else. *)
Theorem UpgradeToSessionToken_effect self env :
  let r :=
    (request (authsub_request self "/accounts/AuthSubSessionToken") env).1 in
  let result := UpgradeToSessionToken self env in
  let token_lines :=
    List.filter (Py.startswith "Token=") (Py.splitlines (read r)) in
  auth_type self = Some AUTHSUB_AUTH_LABEL ->
  outcome result = Return VNone
  /\ trace (env_after result)
     = trace env
       ++ [HTTPSConnection_request "www.google.com" "GET"
             "/accounts/AuthSubSessionToken"
             [("Content-Type", "application/x-www-form-urlencoded");
              ("Authorization",
               "AuthSub token=" +:+ Py.str (auth_token self))]
             None]
  /\ (status r <> 200 \/ token_lines = [] -> service_after result = self)
  /\ (status r = 200 -> forall l, last token_lines = Some l ->
        service_after result
        = set_auth_token (Some (Py.lstrip "Token=" l)) self).
Proof.
  intros r result token_lines Hty. subst result token_lines.
  pose proof (request_trace
                (authsub_request self "/accounts/AuthSubSessionToken") env)
    as Htrace.
  unfold UpgradeToSessionToken, outcome, env_after, service_after.
  destruct (decide (auth_type self ≠ Some AUTHSUB_AUTH_LABEL)); [done|].
  fold r. destruct (request _ env) as [r' env1]. cbn [fst snd] in *.
  subst r. unfold authsub_request in Htrace. rewrite Hty in Htrace.
  destruct (Z.eqb_spec (status r') 200) as [H200|Hne]; cbn [fst snd].
  - repeat split; [done| |].
    + intros [?|Hnone]; [done | by apply fold_upgrade_no_token].
    + intros _ l Hl. by apply fold_upgrade_token.
  - repeat split; done.
Qed.

Lemma RevokeAuthSubToken_authsub self env :
  auth_type self = Some AUTHSUB_AUTH_LABEL ->
  RevokeAuthSubToken self env
  = (Return VNone,
     if status (request (authsub_request self "/accounts/AuthSubRevokeToken")
                  env).1 =? 200
     then set_auth_token None (set_auth_type None self) else self,
     (request (authsub_request self "/accounts/AuthSubRevokeToken") env).2).
Proof.
  intros Hty. unfold RevokeAuthSubToken.
  destruct (decide (auth_type self ≠ Some AUTHSUB_AUTH_LABEL)); [done|].
  destruct (request _ env) as [r env1]. cbn [fst snd].
  by destruct (status r =? 200).
Qed.

Lemma AuthSub_methods_refuse self env :
  auth_type self = None ->
  UpgradeToSessionToken self env = (Raise NonAuthSubToken, self, env)
  /\ RevokeAuthSubToken self env = (Raise NonAuthSubToken, self, env).
Proof.
  intros Hty. unfold UpgradeToSessionToken, RevokeAuthSubToken.
  destruct (decide (auth_type self ≠ Some AUTHSUB_AUTH_LABEL)) as [|Hn];
    [done|].
  exfalso. apply Hn. by rewrite Hty.
Qed.

(** X18: with an AuthSub token, [RevokeAuthSubToken] always returns; a
    status other than 200 leaves the service object as it was, and a 200
    clears the token and its type and nothing else.  After a 200 the
    AuthSub methods raise [NonAuthSubToken] without a call, and a CRUD
    call carries the headers of the caller only. *)
Theorem RevokeAuthSubToken_effect self env :
  let r :=
    (request (authsub_request self "/accounts/AuthSubRevokeToken") env).1 in
  let result := RevokeAuthSubToken self env in
  let self' := service_after result in
  auth_type self = Some AUTHSUB_AUTH_LABEL ->
  outcome result = Return VNone
  /\ (status r <> 200 -> self' = self)
  /\ (status r = 200 ->
      self' = set_auth_token None (set_auth_type None self)
      /\ (forall env',
            UpgradeToSessionToken self' env'
            = (Raise NonAuthSubToken, self', env')
            /\ RevokeAuthSubToken self' env'
               = (Raise NonAuthSubToken, self', env'))
      /\ (forall op uri extra_headers rr env',
            sent_headers env'
              (env_after (crud op self' uri extra_headers rr env'))
            = Some (default ∅ extra_headers))).
Proof.
  intros r result self' Hty. subst self' result.
  rewrite (RevokeAuthSubToken_authsub self env Hty). fold r.
  unfold outcome, service_after. cbn [fst snd].
  split; [done|]. split.
  - intros Hne. by destruct (Z.eqb_spec (status r) 200).
  - intros ->. cbn [Z.eqb Pos.eqb]. split; [done|]. split.
    + intros env'. by apply AuthSub_methods_refuse.
    + intros op uri eh rr env'. by rewrite crud_sent_headers.
Qed.

End AuthSubMore.

Lemma UpgradeToSessionToken_effect_witness :
  let self := _SetAuthSubToken Stub.fresh (Some "CMDLu") in
  let result :=
    UpgradeToSessionToken (X := Stub.externals) self
      (Stub.script [Stub.response 500 "Token=GD32CMCL25" None]) in
  outcome result = Return VNone /\ service_after result = self.
Proof.
  intros self result.
  destruct (UpgradeToSessionToken_effect (X := Stub.externals) self
              (Stub.script [Stub.response 500 "Token=GD32CMCL25" None])
              eq_refl) as (Hout & _ & Hsame & _).
  split; [exact Hout|]. apply Hsame. left. discriminate.
Defined.

Lemma RevokeAuthSubToken_effect_witness :
  let self := _SetAuthSubToken Stub.fresh (Some "CMDLu") in
  let result :=
    RevokeAuthSubToken (X := Stub.externals) self
      (Stub.script [Stub.response 200 "" None]) in
  outcome result = Return VNone
  /\ service_after result = Stub.fresh.
Proof.
  intros self result.
  destruct (RevokeAuthSubToken_effect (X := Stub.externals) self
              (Stub.script [Stub.response 200 "" None]) eq_refl)
    as (Hout & _ & H200).
  split; [exact Hout|]. by destruct (H200 eq_refl) as [-> _].
Defined.

(** ** From credentials to the header *)

Section Credentials.
Context {X : Externals}.


End Credentials.


(** ** Query: accessors, construction and the URI path *)

Lemma accessor_key_inj (a b : Accessor) :
  accessor_key a = accessor_key b -> a = b.
Proof. by destruct a, b. Qed.

(** X20: the named accessors of a query do not interfere: assigning one
    leaves what every other reads, the feed and the categories; an
    accessor reads what was assigned to its key as an item, and of two
    assignments the later one is read. *)
Theorem Query_accessors_independent (self : Query) (a b : Accessor)
    (v w : PyVal) :
  (a <> b -> fget b (fset a self v) = fget b self)
  /\ feed (fset a self v) = feed self
  /\ categories (fset a self v) = categories self
  /\ fget a (setitem self (accessor_key a) v) = v
  /\ fget a (fset a (fset a self v) w) = w.
Proof.
  rewrite !fget_key, !fset_key. repeat split.
  - intros Hab. unfold getitem_or_None, setitem. cbn [items].
    rewrite lookup_insert_ne; [done|].
    intros Hk. by apply accessor_key_inj in Hk.
  - apply getitem_setitem.
  - apply getitem_setitem.
Qed.


Lemma Query_accessors_independent_witness :
  let query := Query_init (Some "/feeds/x") (PyStr "camera") None None in
  _GetTextQuery (_SetMaxResults query (PyInt 10)) = PyStr "camera".
Proof.
  intros query.
  destruct (Query_accessors_independent query prop_max_results
              prop_text_query (PyInt 10) PyNone) as [Hother _].
  etransitivity; [exact (Hother ltac:(discriminate)) | reflexivity].
Defined.


Lemma string_forall_app (p : ascii -> bool) (a b : string) :
  string_forall p (a +:+ b) = string_forall p a && string_forall p b.
Proof.
  induction a as [|c a IH]; [done|].
  rewrite append_cons. cbn [string_forall]. by rewrite IH, andb_assoc.
Qed.

Lemma quote_plus_cons (c : ascii) (s : string) :
  quote_plus (String c s)
  = quote_plus (String c EmptyString) +:+ quote_plus s.
Proof.
  cbn [quote_plus].
  destruct (Ascii.eqb c " "); [done|].
  destruct (Py.char_in c always_safe); [done|].
  unfold percent_encode. by rewrite !append_cons.
Qed.

Lemma quote_plus_char_encoded (c : ascii) :
  string_forall encoded_char (quote_plus (String c EmptyString)) = true.
Proof. destruct c as [[] [] [] [] [] [] [] []]; reflexivity. Qed.

Lemma unquote_plus_char (c : ascii) (rest : string) :
  unquote_plus (quote_plus (String c EmptyString) +:+ rest)
  = String c (unquote_plus rest).
Proof. destruct c as [[] [] [] [] [] [] [] []]; reflexivity. Qed.

Lemma quote_plus_encoded (s : string) :
  string_forall encoded_char (quote_plus s) = true.
Proof.
  induction s as [|c s IH]; [done|].
  by rewrite quote_plus_cons, string_forall_app, quote_plus_char_encoded.
Qed.

Lemma unquote_quote_plus (s : string) : unquote_plus (quote_plus s) = s.
Proof.
  induction s as [|c s IH]; [done|].
  by rewrite quote_plus_cons, unquote_plus_char, IH.
Qed.

(** X22: the path of [ToUri].  Without categories it is the feed as
    given, the empty string when the feed is absent.  With categories it
    is the feed, then [/-/], then the encoded categories in their order
    with a slash between them; every encoded category is made of
    letters, digits, underscore, dot, hyphen, plus and percent only, so
    it holds no slash, bar, question mark or space of its own, and it
    reads back as the category, so that nothing of a category is lost. *)
Theorem ToUri_encodes_categories
    (BuildUri : string -> gmap string PyVal -> string) (self : Query) :
  exists encoded : list string,
    length encoded = length (categories self)
    /\ map unquote_plus encoded = categories self
    /\ Forall (fun e => string_forall encoded_char e = true) encoded
    /\ ToUri BuildUri self
       = BuildUri
           (match encoded with
            | [] => default "" (feed self)
            | _ => default "" (feed self) +:+ "/-/"
                   +:+ String.concat "/" encoded
            end)
           (items self).
Proof.
  exists (map quote_plus (categories self)). repeat split.
  - by rewrite length_map.
  - induction (categories self) as [|c cs IH]; [done|].
    cbn [map]. by rewrite unquote_quote_plus, IH.
  - induction (categories self) as [|c cs IH]; constructor;
      [apply quote_plus_encoded | exact IH].
  - unfold ToUri, ToUri_path. by destruct (categories self).
Qed.

Example ToUri_path_example :
  ToUri_path
    (fset prop_max_results
       (Query_init (Some "/feeds/x") PyNone None (Some ["A"; "B|C"; "d e+f"]))
       (PyInt 10))
  = "/feeds/x/-/A/B%7CC/d+e%2Bf".
Proof. reflexivity. Qed.

